(** * homework_bot: the polling loop of [homework.py] and its exceptions

    A shallow embedding of [src/homework.py] and [src/exceptions.py].

    - JSON values returned by [response.json()] are the inductive [pyval];
      a Python [dict] with string keys is a [gmap string pyval].
    - Python [str] is a [string] holding the UTF-8 bytes of the text.
    - Functions that log and raise live in the monad [E] (events emitted so
      far, then a value or a raised exception).  The body of [main]'s loop
      also assigns the two locals [current_timestamp] and [prev_msg]: it
      lives in [M], which threads them and keeps assignments made before
      an exception is raised.
    - The outside world (clock, HTTP endpoint, Telegram) is a record of
      oracles, one per poll cycle ([cycle_env]).
    - What the interpreter prints for [repr] and for its own error texts is
      the interface [Interp]; nothing below depends on the exact text. *)

From Stdlib Require Import ZArith String Ascii List.
From Stdlib Require Import Floats.PrimFloat.
From Stdlib Require DecimalString.
From stdpp Require Import base option list gmap strings.

Local Open Scope Z_scope.
Local Open Scope string_scope.
Local Open Scope list_scope.

Set Warnings "-register-all".

(** ** Values *)

Inductive pyval : Type :=
| PNone
| PBool (b : bool)
| PInt (z : Z)
| PFloat (f : float)
| PStr (s : string)
| PList (l : list pyval)
| PDict (d : gmap string pyval).

(** [bool(v)]: the truth value used by [or] and [if]. *)
Definition truthy (v : pyval) : bool :=
  match v with
  | PNone => false
  | PBool b => b
  | PInt z => negb (Z.eqb z 0)
  | PFloat f => negb (PrimFloat.eqb f 0%float)
  | PStr s => negb (bool_decide (s = ""))
  | PList l => negb (bool_decide (length l = 0%nat))
  | PDict d => negb (bool_decide (size d = 0%nat))
  end.

(** Lists and dicts have no hash; everything else JSON yields has one. *)
Definition hashable (v : pyval) : bool :=
  match v with
  | PList _ | PDict _ => false
  | _ => true
  end.

(** [str(n)] for an integer. *)
Definition decimal (z : Z) : string :=
  DecimalString.NilZero.string_of_int (Z.to_int z).

(** The double-quote character, written by its code. *)
Definition dquote : string := String (ascii_of_nat 34) EmptyString.

(** [needle in hay] on two [str]: substring test. *)
Fixpoint contains (needle hay : string) : bool :=
  if String.prefix needle hay then true
  else match hay with
       | EmptyString => false
       | String _ rest => contains needle rest
       end.

(** ** Exceptions ([exceptions.py], the built-in ones the code meets, and
    [json.JSONDecodeError], which [response.json()] can let through) *)

Inductive exn_class : Set :=
| Exception
| TypeError
| LookupError
| KeyError
| ValueError
| JSONDecodeError
| AttributeError
| WrongResponseCode
| NotForSend
| EmptyResponseFromAPI
| TelegramError.

Global Instance exn_class_eq_dec : EqDecision exn_class.
Proof. solve_decision. Defined.

(** The class each class is declared from: [class X(base)]. *)
Definition base (c : exn_class) : option exn_class :=
  match c with
  | Exception => None
  | TypeError | LookupError | ValueError | AttributeError => Some Exception
  | KeyError => Some LookupError
  | JSONDecodeError => Some ValueError
  | WrongResponseCode => Some Exception
  | NotForSend => Some Exception
  | EmptyResponseFromAPI => Some NotForSend
  | TelegramError => Some NotForSend
  end.

Fixpoint ancestors (fuel : nat) (c : exn_class) : list exn_class :=
  c :: match fuel, base c with
       | S n, Some b => ancestors n b
       | _, _ => []
       end.

(** [issubclass(c, d)]; no chain of bases is longer than three. *)
Definition issubclass (c d : exn_class) : bool :=
  bool_decide (d ∈ ancestors 3 c).

(** An exception object of a library ([requests], [telegram]): the program
    only ever prints it, so it is the pair of its two printed forms. *)
Record ext_fault : Set := { fault_str : string; fault_repr : string }.

Inductive exn_arg : Set :=
| ArgStr (s : string)
| ArgFault (f : ext_fault).

Record pyexn : Set := { exn_cls : exn_class; exn_args : list exn_arg }.

Definition isinstance (e : pyexn) (c : exn_class) : bool :=
  issubclass (exn_cls e) c.

(** Faults raised by the interpreter itself rather than by a [raise]. *)
Inductive interp_fault : Type :=
| NoAttribute (v : pyval) (attr : string)
| NotAContainer (v : pyval)
| Unhashable (v : pyval).

(** ** The interpreter and the process environment *)

Class Interp : Type := {
  (** [repr(v)] *)
  py_repr : pyval -> string;
  (** the message of an exception raised by the interpreter *)
  interp_text : interp_fault -> string;
  (** [os.getenv('PRACTICUM_TOKEN')] *)
  PRACTICUM_TOKEN : option string;
}.

(** ** Events, outcomes and the two monads *)

Inductive level : Set := DEBUG | INFO | ERROR | CRITICAL.

Inductive event : Type :=
| Log (lv : level) (text : string)   (* a call of logging.<lv>(text) *)
| HttpGet (params : pyval)           (* requests.get(..., params=params) *)
| BotSend (text : string)            (* bot.send_message(..., text=text) *)
| Sleep (secs : Z).                  (* time.sleep(secs) *)

Inductive result (A : Type) : Type :=
| Ret (a : A)
| Raise (e : pyexn).
Arguments Ret {A} a.
Arguments Raise {A} e.

Definition E (A : Type) : Type := (list event * result A)%type.

Global Instance E_ret : MRet E := λ A a, ([], Ret a).
Global Instance E_bind : MBind E := λ A B k m,
  match m with
  | (t, Ret a) => let '(t', r) := k a in (t ++ t', r)
  | (t, Raise e) => (t, Raise e)
  end.

Definition emit (ev : event) : E unit := ([ev], Ret ()).
Definition logging (lv : level) (text : string) : E unit := emit (Log lv text).
Definition raise {A} (c : exn_class) (args : list exn_arg) : E A :=
  ([], Raise {| exn_cls := c; exn_args := args |}).

Definition events {A} (m : E A) : list event := m.1.
Definition outcome {A} (m : E A) : result A := m.2.

(** The locals of [main] that the loop assigns. *)
Record loop_state : Type := {
  current_timestamp : pyval;
  prev_msg : string;
}.

Definition M (A : Type) : Type :=
  loop_state -> (list event * loop_state * result A)%type.

Global Instance M_ret : MRet M := λ A a st, ([], st, Ret a).
Global Instance M_bind : MBind M := λ A B k m st,
  match m st with
  | (t, st', Ret a) => let '(t', st'', r) := k a st' in (t ++ t', st'', r)
  | (t, st', Raise e) => (t, st', Raise e)
  end.

Definition lift {A} (m : E A) : M A := λ st, (m.1, st, m.2).

Definition get_current_timestamp : M pyval :=
  λ st, ([], st, Ret (current_timestamp st)).
Definition get_prev_msg : M string :=
  λ st, ([], st, Ret (prev_msg st)).
Definition set_current_timestamp (v : pyval) : M unit :=
  λ st, ([], {| current_timestamp := v; prev_msg := prev_msg st |}, Ret ()).
Definition set_prev_msg (s : string) : M unit :=
  λ st, ([], {| current_timestamp := current_timestamp st; prev_msg := s |},
         Ret ()).

Definition trace {A} (r : list event * loop_state * result A) : list event :=
  r.1.1.
Definition final {A} (r : list event * loop_state * result A) : loop_state :=
  r.1.2.
Definition verdict {A} (r : list event * loop_state * result A) : result A :=
  r.2.

(** [try: body except c1 as error: h1 except c2 as error: h2 ...]: the first
    clause whose class the exception is an instance of runs; an exception
    raised by that clause is not offered to the other clauses. *)
Fixpoint select_handler (hs : list (exn_class * (pyexn -> M unit)))
    (e : pyexn) : option (M unit) :=
  match hs with
  | [] => None
  | (c, h) :: hs' => if isinstance e c then Some (h e) else select_handler hs' e
  end.

Definition try_except (body : M unit)
    (hs : list (exn_class * (pyexn -> M unit))) : M unit := λ st,
  match body st with
  | (t, st', Raise e) =>
      match select_handler hs e with
      | Some h => let '(t', st'', r) := h st' in (t ++ t', st'', r)
      | None => (t, st', Raise e)
      end
  | r => r
  end.

(** [try: body finally: fin]: [fin] always runs; a pending exception of
    [body] is raised again after it. *)
Definition try_finally (body fin : M unit) : M unit := λ st,
  let '(t, st', r) := body st in
  let '(t', st'', r') := fin st' in
  (t ++ t', st'',
   match r' with
   | Raise e => Raise e
   | Ret _ => r
   end).

(** ** The outside world, one record per poll cycle *)

(** What [response.json()] does: it returns the decoded body; or it
    raises a [RequestException] ([JsonFailed]: what [requests] from 2.27 on
    raises for a body that is not JSON); or it raises the decoder's own
    [json.JSONDecodeError], a [ValueError] that is no [RequestException]
    ([JsonInvalid]: what [requests] before 2.27 does for such a body). The
    source pins no version of [requests], so both are possible. *)
Inductive json_outcome : Type :=
| JsonBody (v : pyval)
| JsonFailed (f : ext_fault)
| JsonInvalid (f : ext_fault).

(** What [requests.get] does: it raises a [RequestException] (timeout,
    connection error, ...) or returns a response with its status code. *)
Inductive http_outcome : Type :=
| RequestFailed (f : ext_fault)
| Response (status_code : Z) (body : json_outcome).

Record cycle_env : Type := {
  (** [int(time.time())] as read by [get_api_answer] *)
  now_request : Z;
  (** [int(time.time())] as read by [main] for the [.get] default *)
  now_response : Z;
  (** the endpoint's answer to a request with the given [params] *)
  requests_get : pyval -> http_outcome;
  (** [bot.send_message]: [None] when it returns, the
      [telegram.error.TelegramError] it raises otherwise *)
  bot_send_message : string -> option ext_fault;
}.

(** ** The program *)

Section Program.
Context `{Interp}.

(** [str(v)], which is also what an f-string or [str.format] field with no
    format spec inserts. *)
Definition py_str (v : pyval) : string :=
  match v with
  | PStr s => s
  | PNone => "None"
  | PBool true => "True"
  | PBool false => "False"
  | PInt z => decimal z
  | PFloat _ | PList _ | PDict _ => py_repr v
  end.

Definition arg_str (a : exn_arg) : string :=
  match a with
  | ArgStr s => s
  | ArgFault f => fault_str f
  end.

Definition arg_repr (a : exn_arg) : string :=
  match a with
  | ArgStr s => py_repr (PStr s)
  | ArgFault f => fault_repr f
  end.

Fixpoint comma_join (l : list string) : string :=
  match l with
  | [] => ""
  | [x] => x
  | x :: rest => x +:+ ", " +:+ comma_join rest
  end.

(** [str(error)]: nothing for no argument, the argument for one ([KeyError]
    prints its [repr]), the tuple of arguments for more. *)
Definition exn_str (e : pyexn) : string :=
  match exn_args e with
  | [] => ""
  | [a] => if isinstance e KeyError then arg_repr a else arg_str a
  | args => "(" +:+ comma_join (map arg_repr args) +:+ ")"
  end.

Definition interp_raise {A} (f : interp_fault) : E A :=
  raise
    match f with
    | NoAttribute _ _ => AttributeError
    | NotAContainer _ | Unhashable _ => TypeError
    end
    [ArgStr (interp_text f)].

(** [obj.get(key, dflt)]: only a [dict] has the method. *)
Definition py_get (obj : pyval) (key : string) (dflt : pyval) : E pyval :=
  match obj with
  | PDict d => mret (default dflt (d !! key))
  | _ => interp_raise (NoAttribute obj "get")
  end.

(** [key in obj] for a [str] key: a key of a dict, an element of a list, a
    substring of a string; the other values are not containers. *)
Definition py_in (key : string) (obj : pyval) : E bool :=
  match obj with
  | PDict d => mret (match d !! key with Some _ => true | None => false end)
  | PList l =>
      mret (existsb (λ v, match v with
                          | PStr s => bool_decide (s = key)
                          | _ => false
                          end) l)
  | PStr s => mret (contains key s)
  | _ => interp_raise (NotAContainer obj)
  end.

Definition RETRY_PERIOD : Z := 600.
Definition ENDPOINT : string :=
  "https://practicum.yandex.ru/api/user_api/homework_statuses/".
Definition HEADERS : pyval :=
  PDict {[ "Authorization" :=
             PStr ("OAuth " +:+ py_str match PRACTICUM_TOKEN with
                                       | Some s => PStr s
                                       | None => PNone
                                       end) ]}.

Definition HOMEWORK_VERDICTS : gmap string string :=
  {[ "approved" := "Работа проверена: ревьюеру всё понравилось. Ура!";
     "reviewing" := "Работа взята на проверку ревьюером.";
     "rejected" := "Работа проверена: у ревьюера есть замечания." ]}.

(** A lookup of [key] in [HOMEWORK_VERDICTS] ([key not in ...] followed by
    [...[key]]): the key is hashed first, and only a [str] equals a key. *)
Definition verdict_of (key : pyval) : E (option string) :=
  if hashable key then
    mret match key with
         | PStr s => HOMEWORK_VERDICTS !! s
         | _ => None
         end
  else interp_raise (Unhashable key).

(** The text of [{url}, {headers}, {params}.] for a request. *)
Definition request_text (params : pyval) : string :=
  ENDPOINT +:+ ", " +:+ py_str HEADERS +:+ ", " +:+ py_str params +:+ ".".

Definition HTTP_OK : Z := 200.

Definition get_api_answer (w : cycle_env) (current_timestamp : pyval)
    : E pyval :=
  let timestamp :=
    if truthy current_timestamp then current_timestamp
    else PInt (now_request w) in
  let params := PDict {[ "from_date" := timestamp ]} in
  logging INFO ("Начало запроса к API. Запрос: " +:+ request_text params);;
  (* except requests.exceptions.RequestException as error *)
  let on_request_exception (error : ext_fault) : E pyval :=
    let message := "Произошла ошибка при запросе к API. "
                   +:+ "API не возвращает 200. "
                   +:+ "Запрос: " +:+ request_text params in
    logging ERROR message;;
    raise WrongResponseCode [ArgStr message; ArgFault error] in
  emit (HttpGet params);;
  match requests_get w params with
  | RequestFailed error => on_request_exception error
  | Response status_code body =>
      if bool_decide (status_code ≠ HTTP_OK) then
        raise WrongResponseCode
          [ArgStr ("API не возвращает 200. "
                   +:+ "Код ответа " +:+ decimal status_code +:+ ". "
                   +:+ "Запрос: " +:+ request_text params)]
      else
        match body with
        | JsonBody v => mret v
        | JsonFailed error => on_request_exception error
        | JsonInvalid error =>
            (* not a RequestException: the [except] clause lets it pass *)
            raise JSONDecodeError [ArgStr (fault_str error)]
        end
  end.

Definition check_response (response : pyval) : E (list pyval) :=
  logging INFO "Проверка ответа API на корректность.";;
  match response with
  | PDict d =>
      has_homeworks ← py_in "homeworks" response;
      has_current_date ← py_in "current_date" response;
      if negb has_homeworks || negb has_current_date then
        raise EmptyResponseFromAPI
          [ArgStr ("Отсутствует один из ключей, homeworks или "
                   +:+ "current_date, в ответе API.")]
      else
        homeworks ← py_get response "homeworks" PNone;
        match homeworks with
        | PList l => mret l
        | _ => raise TypeError [ArgStr "homeworks не является list."]
        end
  | _ => raise TypeError [ArgStr "Ответ API не является dict."]
  end.

(** The template of line 165 with its two fields filled in. *)
Definition status_changed (homework_name : pyval) (verdict : string) : string :=
  "Изменился статус проверки работы " +:+ dquote
  +:+ py_str homework_name +:+ dquote +:+ ". " +:+ verdict.

Definition parse_status (homework : pyval) : E string :=
  logging INFO "Проводим проверки и извлекаем статус работы.";;
  has_name ← py_in "homework_name" homework;
  if negb has_name then
    raise KeyError [ArgStr "Нет ключа homework_name в ответе API."]
  else
    homework_name ← py_get homework "homework_name" PNone;
    homework_status ← py_get homework "status" PNone;
    known ← verdict_of homework_status;
    match known with
    | None =>
        raise ValueError
          [ArgStr ("Неизвестный статус работы - "
                   +:+ py_str homework_status +:+ ".")]
    | Some verdict => mret (status_changed homework_name verdict)
    end.

Definition send_message (w : cycle_env) (message : string) : E unit :=
  logging DEBUG "Начало отправки статуса в telegram.";;
  emit (BotSend message);;
  match bot_send_message w message with
  | Some error =>
      logging ERROR "Ошибка отправки статуса в telegram.";;
      raise TelegramError
        [ArgStr ("Ошибка отправки статуса в telegram: "
                 +:+ fault_str error +:+ ".")]
  | None => logging INFO "Статус отправлен в telegram."
  end.

(** *** [main]: the statement [while True: try ... finally ...] *)

(** The [try] suite (lines 236-249). *)
Definition try_block (w : cycle_env) : M unit :=
  timestamp ← get_current_timestamp;
  response ← lift (get_api_answer w timestamp);
  reported ← lift (py_get response "current_date" (PInt (now_response w)));
  set_current_timestamp reported;;
  homeworks ← lift (check_response response);
  message ← lift match homeworks with
                 | first :: _ => parse_status first
                 | [] => mret "Нет новых статусов"
                 end;
  prev ← get_prev_msg;
  if bool_decide (message ≠ prev) then
    lift (send_message w message);;
    set_prev_msg message
  else lift (logging INFO message).

Definition failure_message (error : pyexn) : string :=
  "Сбой в работе программы: " +:+ exn_str error.

(** [except NotForSend as error] (lines 250-252). *)
Definition except_NotForSend (error : pyexn) : M unit :=
  lift (logging ERROR (failure_message error)).

(** [except Exception as error] (lines 253-258). *)
Definition except_Exception (w : cycle_env) (error : pyexn) : M unit :=
  let message := failure_message error in
  lift (logging ERROR message);;
  prev ← get_prev_msg;
  if bool_decide (message ≠ prev) then
    lift (send_message w message);;
    set_prev_msg message
  else mret ().

(** One pass through the body of the loop (lines 235-260). *)
Definition cycle (w : cycle_env) : M unit :=
  try_finally
    (try_except (try_block w)
       [(NotForSend, except_NotForSend); (Exception, except_Exception w)])
    (lift (emit (Sleep RETRY_PERIOD))).

(** The loop, run against the worlds of its first cycles; it stops early
    only when an exception leaves the [try] statement. *)
Fixpoint poll_loop (ws : list cycle_env) : M unit :=
  match ws with
  | [] => mret ()
  | w :: ws' => cycle w;; poll_loop ws'
  end.

End Program.

(** ** Observations on traces *)

(** The texts handed to [bot.send_message], in order. *)
Definition deliveries (t : list event) : list string :=
  omap (λ ev, match ev with BotSend m => Some m | _ => None end) t.

(** The [params] of the HTTP requests made, in order. *)
Definition requests_made (t : list event) : list pyval :=
  omap (λ ev, match ev with HttpGet p => Some p | _ => None end) t.

(** A status the bot knows a verdict for. *)
Definition recognized (status : pyval) : Prop :=
  status = PStr "approved" ∨ status = PStr "reviewing"
  ∨ status = PStr "rejected".

(** A fetch that ends in a status code other than 200 or in a
    [RequestException], raised by [requests.get] or by [response.json()]. *)
Definition fetch_fails (o : http_outcome) : Prop :=
  match o with
  | RequestFailed _ => True
  | Response status_code body =>
      status_code ≠ HTTP_OK ∨ ∃ f, body = JsonFailed f
  end.

(** What the [try] suite makes of a decoded response before it looks at
    [prev_msg] (lines 237-244, the assignment to [current_timestamp] left
    out): the message, or the exception raised on the way. *)
Definition message_for `{Interp} (w : cycle_env) (response : pyval)
    : E string :=
  _ ← py_get response "current_date" (PInt (now_response w));
  homeworks ← check_response response;
  match homeworks with
  | first :: _ => parse_status first
  | [] => mret "Нет новых статусов"
  end.

(** The message of a cycle, or the exception raised before one is there
    (lines 236-244). *)
Definition try_result `{Interp} (w : cycle_env) (st : loop_state)
    : result string :=
  match outcome (get_api_answer w (current_timestamp st)) with
  | Ret response => outcome (message_for w response)
  | Raise e => Raise e
  end.

(** The text a cycle wants the user to read: the message, or the failure
    message of an exception that is not of the [NotForSend] family. *)
Definition candidate `{Interp} (r : result string) : option string :=
  match r with
  | Ret message => Some message
  | Raise e => if isinstance e NotForSend then None
               else Some (failure_message e)
  end.

(** The value line 237 assigns to [current_timestamp]. *)
Definition reported (w : cycle_env) (response : pyval) (old : pyval)
    : pyval :=
  match response with
  | PDict d => default (PInt (now_response w)) (d !! "current_date")
  | _ => old
  end.

(** The exception [send_message] raises for a fault of the bot. *)
Definition delivery_error (f : ext_fault) : pyexn :=
  {| exn_cls := TelegramError;
     exn_args := [ArgStr ("Ошибка отправки статуса в telegram: "
                          +:+ fault_str f +:+ ".")] |}.

(** An interpreter to run the model on concrete inputs: [repr] quotes a
    string and prints the other scalars; containers and interpreter errors
    print as a fixed mark. *)
Definition sample_interp : Interp := {|
  py_repr v :=
    match v with
    | PStr s => "'" +:+ s +:+ "'"
    | PNone => "None"
    | PBool true => "True"
    | PBool false => "False"
    | PInt z => decimal z
    | PFloat _ => "<float>"
    | PList _ => "[...]"
    | PDict _ => "{...}"
    end;
  interp_text f :=
    match f with
    | NoAttribute _ attr => "object has no attribute '" +:+ attr +:+ "'"
    | NotAContainer _ => "argument is not iterable"
    | Unhashable _ => "unhashable type"
    end;
  PRACTICUM_TOKEN := Some "practicum-token";
|}.

(** The class of the exception a computation ended with, if any. *)
Definition raised_class {A} (r : result A) : option exn_class :=
  match r with
  | Raise e => Some (exn_cls e)
  | Ret _ => None
  end.

(** ** Sample inputs *)

Definition hw1_approved : gmap string pyval :=
  {[ "homework_name" := PStr "hw1"; "status" := PStr "approved" ]}.

(** A record whose status is a JSON array. *)
Definition hw1_list_status : gmap string pyval :=
  {[ "homework_name" := PStr "hw1"; "status" := PList [] ]}.

Definition nameless_approved : gmap string pyval :=
  {[ "status" := PStr "approved" ]}.

Definition response_hw1 : gmap string pyval :=
  {[ "homeworks" := PList [PDict hw1_approved];
     "current_date" := PInt 1700000600 ]}.

Definition response_no_date : gmap string pyval :=
  {[ "homeworks" := PList [] ]}.

(** A response whose [current_date] lies in the past. *)
Definition response_old_date : gmap string pyval :=
  {[ "homeworks" := PList []; "current_date" := PInt 5 ]}.

Definition timed_out : ext_fault :=
  {| fault_str := "Timed out"; fault_repr := "TimedOut('Timed out')" |}.

(** A cycle in which every request gets [answer] and every call of the bot
    ends as [bot] says. *)
Definition world (answer : http_outcome) (bot : option ext_fault)
    : cycle_env :=
  {| now_request := 1700000100;
     now_response := 1700000101;
     requests_get := λ _, answer;
     bot_send_message := λ _, bot |}.

Definition hw1_bot_up : cycle_env :=
  world (Response 200 (JsonBody (PDict response_hw1))) None.
Definition hw1_bot_down : cycle_env :=
  world (Response 200 (JsonBody (PDict response_hw1))) (Some timed_out).
Definition unavailable_bot_down : cycle_env :=
  world (Response 503 (JsonBody PNone)) (Some timed_out).
Definition old_date_bot_up : cycle_env :=
  world (Response 200 (JsonBody (PDict response_old_date))) None.

(** The locals of [main] when the loop is entered at time 1700000000. *)
Definition start : loop_state :=
  {| current_timestamp := PInt 1700000000; prev_msg := "" |}.

(** The sentence for hw1, approved. *)
Definition hw1_sentence : string :=
  "Изменился статус проверки работы " +:+ dquote +:+ "hw1" +:+ dquote
  +:+ ". Работа проверена: ревьюеру всё понравилось. Ура!".

(** ** The start of [main] (lines 41-53 and 217-232) *)

(** What the process finds around it when it starts, besides
    [PRACTICUM_TOKEN]: the two other values of [os.getenv], what
    [telegram.Bot(token=TELEGRAM_TOKEN)] does ([None] when it returns the
    bot, the [telegram.error.TelegramError] it raises otherwise), the
    clock reading of line 224, and the world in which the start message is
    sent (only its bot is consulted). *)
Record process_env : Type := {
  TELEGRAM_TOKEN : option string;
  TELEGRAM_CHAT_ID : option string;
  telegram_Bot : option ext_fault;
  now_start : Z;
  start_world : cycle_env;
}.

(** The value [os.getenv] hands back. *)
Definition env_value (o : option string) : pyval :=
  match o with
  | Some s => PStr s
  | None => PNone
  end.

Definition check_tokens `{Interp} (env : process_env) : E bool :=
  logging INFO "Проверка наличия всех токенов.";;
  mret (forallb truthy [env_value PRACTICUM_TOKEN;
                        env_value (TELEGRAM_TOKEN env);
                        env_value (TELEGRAM_CHAT_ID env)]).

(** How [main] stops, when it does. *)
Inductive halt : Type :=
| SystemExit (message : string)   (* sys.exit(message) *)
| LibraryError (f : ext_fault)    (* telegram.Bot(...) raised *)
| Uncaught (e : pyexn).           (* an exception of the program left main *)

Definition start_message : string := "Бот начал работу.".
Definition no_token_message : string := "Отсутствует токен. Бот остановлен!".

(** [main], run against the worlds of its first cycles: the events, and
    how it stopped ([None] when the loop is still running after them). *)
Definition main `{Interp} (env : process_env) (ws : list cycle_env)
    : list event * option halt :=
  match check_tokens env with
  | (t0, Raise e) => (t0, Some (Uncaught e))
  | (t0, Ret false) =>
      (t0 ++ [Log CRITICAL no_token_message],
       Some (SystemExit no_token_message))
  | (t0, Ret true) =>
      match telegram_Bot env with
      | Some f => (t0, Some (LibraryError f))
      | None =>
          let current_timestamp := PInt (now_start env) in
          match send_message (start_world env) start_message with
          | (t1, Raise e) => (t0 ++ t1, Some (Uncaught e))
          | (t1, Ret _) =>
              let prev_msg := "" in
              let '(t2, _, r) :=
                poll_loop ws {| current_timestamp := current_timestamp;
                                prev_msg := prev_msg |} in
              (t0 ++ t1 ++ [Log INFO start_message] ++ t2,
               match r with
               | Ret _ => None
               | Raise e => Some (Uncaught e)
               end)
          end
      end
  end.

(** [isinstance(v, dict)] *)
Definition is_mapping (v : pyval) : bool :=
  match v with
  | PDict _ => true
  | _ => false
  end.

(** An environment value that [check_tokens] counts as missing. *)
Definition token_absent (o : option string) : Prop :=
  o = None ∨ o = Some "".

(** The lengths of the sleeps, in order. *)
Definition sleeps (t : list event) : list Z :=
  omap (λ ev, match ev with Sleep n => Some n | _ => None end) t.

(** The request a cycle makes for a given [current_timestamp]. *)
Definition request_params (w : cycle_env) (ts : pyval) : pyval :=
  PDict {[ "from_date" := if truthy ts then ts else PInt (now_request w) ]}.

(** The [json.JSONDecodeError] that [response.json()] lets through. *)
Definition decode_error (f : ext_fault) : pyexn :=
  {| exn_cls := JSONDecodeError; exn_args := [ArgStr (fault_str f)] |}.

(** The exception of line 127. *)
Definition empty_response_error : pyexn :=
  {| exn_cls := EmptyResponseFromAPI;
     exn_args := [ArgStr ("Отсутствует один из ключей, homeworks или "
                          +:+ "current_date, в ответе API.")] |}.

Definition no_new_statuses : string := "Нет новых статусов".

(** Sample environments of the process. *)
Definition env_ready : process_env :=
  {| TELEGRAM_TOKEN := Some "123456:telegram-token";
     TELEGRAM_CHAT_ID := Some "42";
     telegram_Bot := None;
     now_start := 1700000000;
     start_world := world (Response 200 (JsonBody (PDict response_hw1))) None |}.

Definition env_no_chat_id : process_env :=
  {| TELEGRAM_TOKEN := Some "123456:telegram-token";
     TELEGRAM_CHAT_ID := None;
     telegram_Bot := None;
     now_start := 1700000000;
     start_world := world (Response 200 (JsonBody (PDict response_hw1))) None |}.

Definition env_bot_down : process_env :=
  {| TELEGRAM_TOKEN := Some "123456:telegram-token";
     TELEGRAM_CHAT_ID := Some "42";
     telegram_Bot := None;
     now_start := 1700000000;
     start_world :=
       world (Response 200 (JsonBody (PDict response_hw1))) (Some timed_out) |}.

(** What the decoder says of a body that is an HTML page, and a world in
    which the endpoint answers 200 with such a body and [response.json()]
    lets the decoder's error through. *)
Definition not_json : ext_fault :=
  {| fault_str := "Expecting value: line 1 column 1 (char 0)";
     fault_repr :=
       "JSONDecodeError('Expecting value: line 1 column 1 (char 0)')" |}.
Definition html_body_bot_up : cycle_env :=
  world (Response 200 (JsonInvalid not_json)) None.

(** More sample worlds: a body that is a JSON array, a mapping without
    [current_date], and an endpoint that is down while the bot is up. *)
Definition array_body_bot_up : cycle_env :=
  world (Response 200 (JsonBody (PList []))) None.
Definition no_date_bot_up : cycle_env :=
  world (Response 200 (JsonBody (PDict response_no_date))) None.
Definition unavailable_bot_up : cycle_env :=
  world (Response 503 (JsonBody PNone)) None.

(** ** Strings *)

Lemma app_cons (c : ascii) (s t : string) :
  String c s +:+ t = String c (s +:+ t).
Proof. reflexivity. Qed.

Lemma app_nil_r (s : string) : s +:+ "" = s.
Proof. induction s as [|c s IH]; [done|]. by rewrite app_cons, IH. Qed.

Lemma app_assoc_string (a b c : string) : (a +:+ b) +:+ c = a +:+ b +:+ c.
Proof. induction a as [|x a IH]; [done|]. by rewrite !app_cons, IH. Qed.

Lemma prefix_app (s t : string) : String.prefix s (s +:+ t) = true.
Proof.
  induction s as [|c s IH].
  - by destruct t.
  - rewrite app_cons. simpl. by destruct (ascii_dec c c).
Qed.

Lemma contains_prefix (n h : string) :
  String.prefix n h = true → contains n h = true.
Proof. intros Hp. destruct h; unfold contains; fold contains; by rewrite Hp. Qed.

Lemma contains_app (n a b : string) : contains n (a +:+ n +:+ b) = true.
Proof.
  induction a as [|c a IH].
  - change ("" +:+ n +:+ b) with (n +:+ b).
    apply contains_prefix, prefix_app.
  - rewrite app_cons. unfold contains; fold contains.
    rewrite IH. by destruct (String.prefix _ _).
Qed.

Lemma contains_app_r (n a b : string) :
  contains n b = true → contains n (a +:+ b) = true.
Proof.
  intros Hb. induction a as [|c a IH]; [done|].
  rewrite app_cons. unfold contains; fold contains.
  rewrite IH. by destruct (String.prefix _ _).
Qed.

Lemma contains_suffix (n a : string) : contains n (a +:+ n) = true.
Proof. rewrite <- (app_nil_r n) at 2. apply contains_app. Qed.

Lemma contains_refl (n : string) : contains n n = true.
Proof. apply (contains_suffix n ""). Qed.

(** ** The exception classes *)

Lemma EmptyResponseFromAPI_not_for_send :
  issubclass EmptyResponseFromAPI NotForSend = true.
Proof. reflexivity. Qed.

Lemma TelegramError_not_for_send : issubclass TelegramError NotForSend = true.
Proof. reflexivity. Qed.

Lemma WrongResponseCode_is_for_send :
  issubclass WrongResponseCode NotForSend = false.
Proof. reflexivity. Qed.

(** Every class of the program is caught by [except Exception]. *)
Lemma issubclass_Exception (c : exn_class) : issubclass c Exception = true.
Proof. by destruct c. Qed.

Section Functions.
Context `{Interp}.

(** ** [HOMEWORK_VERDICTS] *)

Lemma verdicts_unknown (s : string) :
  s ≠ "approved" → s ≠ "reviewing" → s ≠ "rejected" →
  HOMEWORK_VERDICTS !! s = None.
Proof.
  intros ???. unfold HOMEWORK_VERDICTS.
  rewrite !lookup_insert_ne by done. by rewrite lookup_singleton_ne.
Qed.

Lemma verdict_of_unrecognized (status : pyval) :
  hashable status = true → ¬ recognized status →
  verdict_of status = ([], Ret None).
Proof.
  intros Hh Hr. unfold verdict_of. rewrite Hh.
  destruct status; try done.
  rewrite verdicts_unknown; [done | | |];
    intros ->; apply Hr; unfold recognized; auto.
Qed.

End Functions.

Section Validation.
Context `{Interp}.

Lemma check_response_dict (d : gmap string pyval) :
  outcome (check_response (PDict d)) =
    match d !! "homeworks", d !! "current_date" with
    | Some (PList l), Some _ => Ret l
    | Some _, Some _ =>
        Raise {| exn_cls := TypeError;
                 exn_args := [ArgStr "homeworks не является list."] |}
    | _, _ =>
        Raise {| exn_cls := EmptyResponseFromAPI;
                 exn_args :=
                   [ArgStr ("Отсутствует один из ключей, homeworks или "
                            +:+ "current_date, в ответе API.")] |}
    end.
Proof.
  unfold check_response, outcome. simpl.
  destruct (d !! "homeworks") as [v|]; destruct (d !! "current_date");
    simpl; try done.
  all: by destruct v.
Qed.

Lemma check_response_events (response : pyval) :
  events (check_response response) =
    [Log INFO "Проверка ответа API на корректность."].
Proof.
  unfold check_response, events. destruct response; try done. simpl.
  destruct (d !! "homeworks") as [v|]; destruct (d !! "current_date");
    simpl; try done.
  all: by destruct v.
Qed.

(** C5: a response mapping that lacks [homeworks] or [current_date] makes
    [check_response] fail with [EmptyResponseFromAPI], a subclass of
    [NotForSend], and never with [TypeError]. *)
Theorem C5_missing_key_is_empty_response (d : gmap string pyval) :
  d !! "homeworks" = None ∨ d !! "current_date" = None →
  ∃ e, outcome (check_response (PDict d)) = Raise e
       ∧ exn_cls e = EmptyResponseFromAPI
       ∧ isinstance e NotForSend = true
       ∧ isinstance e TypeError = false.
Proof.
  intros Hmiss. rewrite check_response_dict.
  destruct Hmiss as [-> | Hdate].
  - eexists; split; [reflexivity | done].
  - rewrite Hdate.
    destruct (d !! "homeworks") as [[]|]; eexists; split; done.
Qed.

(** C6: on a mapping that has both keys, [check_response] fails with
    [TypeError] when the value of [homeworks] is not a list, and returns
    that very list, empty or not, when it is one. *)
Theorem C6_homeworks_list_returned_unchanged
    (d : gmap string pyval) (v : pyval) :
  d !! "homeworks" = Some v → is_Some (d !! "current_date") →
  match v with
  | PList l => outcome (check_response (PDict d)) = Ret l
  | _ => ∃ e, outcome (check_response (PDict d)) = Raise e
              ∧ exn_cls e = TypeError
  end.
Proof.
  intros Hh [c Hc]. rewrite check_response_dict, Hh, Hc.
  destruct v; eauto.
Qed.

End Validation.

Section Formatting.
Context `{Interp}.

Lemma parse_status_dict (d : gmap string pyval) :
  outcome (parse_status (PDict d)) =
    match d !! "homework_name" with
    | None =>
        Raise {| exn_cls := KeyError;
                 exn_args := [ArgStr "Нет ключа homework_name в ответе API."] |}
    | Some name =>
        let status := default PNone (d !! "status") in
        match outcome (verdict_of status) with
        | Raise e => Raise e
        | Ret None =>
            Raise {| exn_cls := ValueError;
                     exn_args := [ArgStr ("Неизвестный статус работы - "
                                          +:+ py_str status +:+ ".")] |}
        | Ret (Some verdict) => Ret (status_changed name verdict)
        end
    end.
Proof.
  unfold parse_status, outcome. simpl.
  destruct (d !! "homework_name") as [name|]; simpl; [|done].
  by destruct (verdict_of _) as [t [[verdict|]|e]].
Qed.

Lemma parse_status_recognized (d : gmap string pyval) (name : pyval)
    (s verdict : string) :
  d !! "homework_name" = Some name →
  default PNone (d !! "status") = PStr s →
  HOMEWORK_VERDICTS !! s = Some verdict →
  outcome (parse_status (PDict d)) = Ret (status_changed name verdict).
Proof.
  intros Hn Hs Hv. rewrite parse_status_dict, Hn. simpl. rewrite Hs.
  unfold verdict_of, outcome. simpl. by rewrite Hv.
Qed.

(** The formatted sentence holds the name and the verdict. *)
Lemma status_changed_contains (name : pyval) (verdict : string) :
  contains (py_str name) (status_changed name verdict) = true
  ∧ contains verdict (status_changed name verdict) = true.
Proof.
  unfold status_changed. split.
  - rewrite <- (app_assoc_string _ dquote). apply contains_app.
  - rewrite <- !app_assoc_string. apply contains_suffix.
Qed.

(** X19: on a record that has [homework_name], each of the three
    recognized statuses yields the sentence built from the name and the
    fixed verdict of that status (for name hw1 and status approved, the exact
    text); the sentence contains the name and the verdict; any other status
    that can be hashed (a string, a number, a boolean, null), or no status
    at all, fails with [ValueError]. *)
Theorem X19_parse_status_verdicts (d : gmap string pyval) (name : pyval) :
  d !! "homework_name" = Some name →
  let status := default PNone (d !! "status") in
  let parsed := outcome (parse_status (PDict d)) in
  (status = PStr "approved" →
   parsed = Ret (status_changed name
                   "Работа проверена: ревьюеру всё понравилось. Ура!"))
  ∧ (status = PStr "reviewing" →
     parsed = Ret (status_changed name "Работа взята на проверку ревьюером."))
  ∧ (status = PStr "rejected" →
     parsed = Ret (status_changed name
                     "Работа проверена: у ревьюера есть замечания."))
  ∧ (name = PStr "hw1" → status = PStr "approved" →
     parsed = Ret hw1_sentence)
  ∧ (∀ verdict,
       contains (py_str name) (status_changed name verdict) = true
       ∧ contains verdict (status_changed name verdict) = true)
  ∧ (hashable status = true → ¬ recognized status →
     ∃ e, parsed = Raise e ∧ exn_cls e = ValueError).
Proof.
  intros Hname status parsed.
  assert (Hknown : ∀ s verdict,
             status = PStr s → HOMEWORK_VERDICTS !! s = Some verdict →
             parsed = Ret (status_changed name verdict)).
  { intros s verdict Hs Hv. by eapply parse_status_recognized. }
  repeat split.
  - intros Hs. by apply (Hknown "approved").
  - intros Hs. by apply (Hknown "reviewing").
  - intros Hs. by apply (Hknown "rejected").
  - intros -> Hs. by apply (Hknown "approved").
  - apply status_changed_contains.
  - apply status_changed_contains.
  - intros Hh Hr. subst parsed status.
    rewrite parse_status_dict, Hname. simpl.
    rewrite verdict_of_unrecognized by done. by eexists.
Qed.

(** C10: a record without [homework_name] fails with [KeyError] whatever
    its status is, and [parse_status] raises [ValueError] only on a mapping
    that has the key [homework_name]. *)
Theorem C10_name_checked_before_status :
  (∀ d : gmap string pyval,
     d !! "homework_name" = None →
     ∃ e, outcome (parse_status (PDict d)) = Raise e ∧ exn_cls e = KeyError)
  ∧ (∀ (homework : pyval) (e : pyexn),
       outcome (parse_status homework) = Raise e → exn_cls e = ValueError →
       ∃ d, homework = PDict d ∧ is_Some (d !! "homework_name")).
Proof.
  split.
  - intros d Hd. rewrite parse_status_dict, Hd. by eexists.
  - intros homework e Hraise Hcls. destruct homework as [| | | | s |l|d].
    1-4: unfold parse_status, outcome in Hraise; simpl in Hraise;
         by simplify_eq.
    + unfold parse_status, outcome in Hraise. simpl in Hraise.
      destruct (contains _ s); simpl in Hraise; by simplify_eq.
    + unfold parse_status, outcome in Hraise. simpl in Hraise.
      destruct (existsb _ l); simpl in Hraise; by simplify_eq.
    + exists d. split; [done|].
      rewrite parse_status_dict in Hraise.
      destruct (d !! "homework_name"); [by eexists | by simplify_eq].
Qed.

End Formatting.

Section Loop.
Context `{Interp}.

Local Arguments get_api_answer : simpl never.
Local Arguments check_response : simpl never.
Local Arguments parse_status : simpl never.
Local Arguments failure_message : simpl never.

Lemma send_message_ok (w : cycle_env) (m : string) :
  bot_send_message w m = None →
  send_message w m =
    ([Log DEBUG "Начало отправки статуса в telegram."; BotSend m;
      Log INFO "Статус отправлен в telegram."], Ret ()).
Proof. intros Hs. unfold send_message. simpl. by rewrite Hs. Qed.

Lemma send_message_fault (w : cycle_env) (m : string) (f : ext_fault) :
  bot_send_message w m = Some f →
  send_message w m =
    ([Log DEBUG "Начало отправки статуса в telegram."; BotSend m;
      Log ERROR "Ошибка отправки статуса в telegram."],
     Raise (delivery_error f)).
Proof. intros Hs. unfold send_message. simpl. by rewrite Hs. Qed.

Lemma deliveries_app (t1 t2 : list event) :
  deliveries (t1 ++ t2) = deliveries t1 ++ deliveries t2.
Proof. apply omap_app. Qed.

Lemma get_api_answer_no_delivery (w : cycle_env) (ts : pyval) :
  deliveries (events (get_api_answer w ts)) = [].
Proof.
  unfold get_api_answer, events. simpl.
  destruct (requests_get w _) as [f|code [v|f|f]]; simpl; try done;
    by case_bool_decide.
Qed.

Lemma parse_status_events (homework : pyval) :
  events (parse_status homework) =
    [Log INFO "Проводим проверки и извлекаем статус работы."].
Proof.
  unfold parse_status, events.
  destruct homework as [| | | | s |l|d]; simpl; try done.
  - by destruct (contains _ s).
  - by destruct (existsb _ l).
  - destruct (d !! "homework_name"); simpl; [|done].
    unfold verdict_of. destruct (hashable _); simpl; [|done].
    destruct (default PNone (d !! "status")) as [| | | | s |l|d'];
      simpl; try done.
    by destruct (HOMEWORK_VERDICTS !! s).
Qed.

(** *** One cycle, case by case *)

Ltac unfold_loop :=
  cbv beta iota zeta delta
    [cycle try_finally try_except try_block select_handler
     except_NotForSend except_Exception mbind mret M_bind M_ret lift
     get_current_timestamp get_prev_msg set_current_timestamp set_prev_msg
     trace final verdict outcome events fst snd try_result candidate
     message_for E_bind E_ret logging emit] in *.

Ltac send_cases w :=
  match goal with
  | |- context [send_message w ?m] =>
      let Hs := fresh "Hsend" in
      destruct (bot_send_message w m) eqn:Hs;
      [rewrite (send_message_fault _ _ _ Hs)
      |rewrite (send_message_ok _ _ Hs)]
  end.

Ltac handler_cases w :=
  unfold isinstance; rewrite ?issubclass_Exception;
  repeat match goal with
  | |- context [issubclass ?c NotForSend] =>
      destruct (issubclass c NotForSend) eqn:?
  | |- context [bool_decide (?m ≠ ?p)] =>
      destruct (bool_decide (m ≠ p)) eqn:?
  end; simpl in *; try congruence;
  try send_cases w; simpl.

Lemma cycle_cases (w : cycle_env) (st : loop_state) :
  let c := cycle w st in
  match candidate (try_result w st) with
  | None =>
      deliveries (trace c) = [] ∧ prev_msg (final c) = prev_msg st
      ∧ verdict c = Ret ()
  | Some m =>
      if bool_decide (m ≠ prev_msg st) then
        deliveries (trace c) = [m]
        ∧ match bot_send_message w m with
          | None => prev_msg (final c) = m ∧ verdict c = Ret ()
          | Some f =>
              prev_msg (final c) = prev_msg st
              ∧ verdict c = match try_result w st with
                            | Ret _ => Ret ()
                            | Raise _ => Raise (delivery_error f)
                            end
          end
      else
        deliveries (trace c) = [] ∧ prev_msg (final c) = prev_msg st
        ∧ verdict c = Ret ()
  end.
Proof.
  pose proof (get_api_answer_no_delivery w (current_timestamp st)) as H0.
  unfold_loop.
  destruct (get_api_answer w (current_timestamp st)) as [t0 [r|e]]; simpl in *.
  2: { handler_cases w; rewrite ?deliveries_app, ?H0; simpl; done. }
  destruct r as [| | | | |l|d]; simpl.
  1-6: handler_cases w; rewrite ?deliveries_app, ?H0; simpl; done.
  pose proof (check_response_events (PDict d)) as H1.
  destruct (check_response (PDict d)) as [t1 [hws|e1]];
    unfold events in H1; simpl in *; subst t1.
  2: { handler_cases w; rewrite ?deliveries_app, ?H0; simpl; done. }
  destruct hws as [|first rest]; simpl.
  { handler_cases w; rewrite ?deliveries_app, ?H0; simpl; done. }
  pose proof (parse_status_events first) as H2.
  destruct (parse_status first) as [t2 [m|e2]];
    unfold events in H2; simpl in *; subst t2.
  all: handler_cases w; rewrite ?deliveries_app, ?H0; simpl; done.
Qed.

Lemma poll_loop_cons (w : cycle_env) (ws : list cycle_env) (st : loop_state) :
  poll_loop (w :: ws) st =
    match cycle w st with
    | (t, st', Ret _) =>
        let '(t', st'', r) := poll_loop ws st' in (t ++ t', st'', r)
    | (t, st', Raise e) => (t, st', Raise e)
    end.
Proof. reflexivity. Qed.

Lemma cycle_timestamp (w : cycle_env) (st : loop_state) :
  current_timestamp (final (cycle w st)) =
    match outcome (get_api_answer w (current_timestamp st)) with
    | Ret response => reported w response (current_timestamp st)
    | Raise _ => current_timestamp st
    end.
Proof.
  unfold_loop.
  destruct (get_api_answer w (current_timestamp st)) as [t0 [r|e]]; simpl in *.
  2: { handler_cases w; done. }
  destruct r as [| | | | |l|d]; simpl.
  1-6: handler_cases w; done.
  destruct (check_response (PDict d)) as [t1 [hws|e1]]; simpl in *.
  2: { handler_cases w; done. }
  destruct hws as [|first rest]; simpl.
  { handler_cases w; done. }
  destruct (parse_status first) as [t2 [m|e2]]; simpl in *.
  all: handler_cases w; done.
Qed.

(** *** Fetching *)

Lemma get_api_answer_ok (w : cycle_env) (ts response : pyval) :
  (∀ params, requests_get w params = Response HTTP_OK (JsonBody response)) →
  outcome (get_api_answer w ts) = Ret response.
Proof.
  intros Hget. unfold get_api_answer, outcome. simpl. by rewrite Hget.
Qed.

(** C9: a falsy timestamp, 0 among them, is replaced by the clock reading
    in the [from_date] parameter of the request; a truthy one is sent as it
    is. *)
Theorem C9_falsy_timestamp_replaced_by_clock (w : cycle_env) (ts : pyval) :
  (truthy ts = false →
   requests_made (events (get_api_answer w ts)) =
     [PDict {[ "from_date" := PInt (now_request w) ]}])
  ∧ (truthy ts = true →
     requests_made (events (get_api_answer w ts)) =
       [PDict {[ "from_date" := ts ]}])
  ∧ requests_made (events (get_api_answer w (PInt 0))) =
      [PDict {[ "from_date" := PInt (now_request w) ]}].
Proof.
  assert (Hreq : ∀ v, requests_made (events (get_api_answer w v)) =
                      [PDict {[ "from_date" := if truthy v then v
                                               else PInt (now_request w) ]}]).
  { intros v. unfold get_api_answer, events. simpl.
    destruct (requests_get w _) as [f|code [body|f|f]]; simpl; try done;
      by case_bool_decide. }
  repeat split.
  - intros Hts. by rewrite Hreq, Hts.
  - intros Hts. by rewrite Hreq, Hts.
  - by rewrite Hreq.
Qed.

(** Both failure modes of a fetch raise [WrongResponseCode] with a message
    that names the failure and ends in the text of the request. *)
Lemma get_api_answer_fails (w : cycle_env) (ts : pyval) :
  let params := PDict {[ "from_date" := if truthy ts then ts
                                        else PInt (now_request w) ]} in
  fetch_fails (requests_get w params) →
  ∃ msg rest,
    outcome (get_api_answer w ts) =
      Raise {| exn_cls := WrongResponseCode; exn_args := ArgStr msg :: rest |}
    ∧ contains "API не возвращает 200. " msg = true
    ∧ contains ("Запрос: " +:+ request_text params) msg = true
    ∧ ∀ code body, requests_get w params = Response code body →
                   code ≠ HTTP_OK →
                   contains ("Код ответа " +:+ decimal code +:+ ". ") msg = true.
Proof.
  intros params Hfail. unfold get_api_answer, outcome. simpl. fold params.
  assert (Hcode : ∀ code : Z,
             contains ("Код ответа " +:+ decimal code +:+ ". ")
               ("API не возвращает 200. " +:+ "Код ответа "
                +:+ decimal code +:+ ". " +:+ "Запрос: "
                +:+ request_text params) = true).
  { intros code. apply contains_app_r.
    replace ("Код ответа " +:+ decimal code +:+ ". " +:+ "Запрос: "
             +:+ request_text params)
      with (("Код ответа " +:+ decimal code +:+ ". ") +:+ "Запрос: "
            +:+ request_text params)
      by (by rewrite !app_assoc_string).
    apply contains_prefix, prefix_app. }
  destruct (requests_get w params) as [f|code [body|f|f]] eqn:Hget; simpl.
  - eexists _, _. split; [done|]. split; [|split]; [| |done].
    + apply contains_app_r, contains_prefix, prefix_app.
    + do 2 apply contains_app_r. apply contains_refl.
  - destruct Hfail as [Hne | [f Hf]]; [|done].
    rewrite bool_decide_true by done. simpl.
    eexists _, _. split; [done|]. split; [|split].
    + apply contains_prefix, prefix_app.
    + do 4 apply contains_app_r. apply contains_refl.
    + by intros code' body' [= <- <-] _.
  - case_bool_decide as Hne; simpl.
    + eexists _, _. split; [done|]. split; [|split].
      * apply contains_prefix, prefix_app.
      * do 4 apply contains_app_r. apply contains_refl.
      * by intros code' body' [= <- <-] _.
    + eexists _, _. split; [done|]. split; [|split].
      * apply contains_app_r, contains_prefix, prefix_app.
      * do 2 apply contains_app_r. apply contains_refl.
      * by intros code' body' [= <- <-] ?.
  - destruct Hfail as [Hne | [f' Hf]]; [|done].
    rewrite bool_decide_true by done. simpl.
    eexists _, _. split; [done|]. split; [|split].
    + apply contains_prefix, prefix_app.
    + do 4 apply contains_app_r. apply contains_refl.
    + by intros code' body' [= <- <-] _.
Qed.

(** *** What a cycle logs *)

(** Every exception of the [try] suite is logged by a handler; a message
    equal to [prev_msg] is logged at info level; a delivery fault in the
    [try] suite leaves it as [TelegramError] and is logged by the
    [NotForSend] handler. *)
Lemma cycle_logs (w : cycle_env) (st : loop_state) :
  match try_result w st with
  | Raise e => Log ERROR (failure_message e) ∈ trace (cycle w st)
  | Ret m =>
      if bool_decide (m ≠ prev_msg st) then
        match bot_send_message w m with
        | Some f =>
            verdict (try_block w st) = Raise (delivery_error f)
            ∧ Log ERROR (failure_message (delivery_error f))
              ∈ trace (cycle w st)
        | None => verdict (try_block w st) = Ret ()
        end
      else Log INFO m ∈ trace (cycle w st)
  end.
Proof.
  unfold_loop.
  destruct (get_api_answer w (current_timestamp st)) as [t0 [r|e]]; simpl in *.
  2: { handler_cases w; set_solver. }
  destruct r as [| | | | |l|d]; simpl.
  1-6: handler_cases w; set_solver.
  destruct (check_response (PDict d)) as [t1 [hws|e1]]; simpl in *.
  2: { handler_cases w; set_solver. }
  destruct hws as [|first rest]; simpl.
  { handler_cases w; first [done | set_solver]. }
  destruct (parse_status first) as [t2 [m|e2]]; simpl in *.
  all: handler_cases w; first [done | set_solver].
Qed.

(** The loop sleeps at the end of every cycle, whatever happened. *)
Lemma cycle_sleeps (w : cycle_env) (st : loop_state) :
  ∃ t, trace (cycle w st) = t ++ [Sleep RETRY_PERIOD].
Proof.
  unfold cycle, try_finally, trace.
  destruct (try_except _ _ st) as [[t st'] r]. simpl. by eexists.
Qed.

(** *** When an exception leaves the loop *)

(** An exception leaves the [try] statement exactly when the generic
    handler tries to send its failure message and the bot fails: the
    [TelegramError] raised inside the handler is not offered to the
    [except NotForSend] clause beside it. *)
Lemma cycle_raises (w : cycle_env) (st : loop_state) (e : pyexn) :
  verdict (cycle w st) = Raise e ↔
  ∃ e0 f, try_result w st = Raise e0
          ∧ isinstance e0 NotForSend = false
          ∧ failure_message e0 ≠ prev_msg st
          ∧ bot_send_message w (failure_message e0) = Some f
          ∧ e = delivery_error f.
Proof.
  pose proof (cycle_cases w st) as Hc. simpl in Hc.
  destruct (try_result w st) as [m|e0] eqn:Htry; simpl in Hc.
  - assert (Hv : verdict (cycle w st) = Ret ()).
    { destruct (bool_decide (m ≠ prev_msg st)); [|apply Hc].
      destruct (bot_send_message w m); apply Hc. }
    rewrite Hv. split; [done|]. by intros (? & ? & ? & _).
  - destruct (isinstance e0 NotForSend) eqn:Hnfs.
    { destruct Hc as (_ & _ & ->). split; [done|].
      intros (? & ? & [= <-] & ? & _). congruence. }
    case_bool_decide as Hne.
    + destruct (bot_send_message w _) as [f|] eqn:Hs.
      * destruct Hc as (_ & _ & ->). split.
        -- intros [= <-]. by exists e0, f.
        -- intros (? & ? & [= <-] & _ & _ & Hs' & ->). congruence.
      * destruct Hc as (_ & _ & ->). split; [done|].
        intros (? & ? & [= <-] & _ & _ & Hs' & _). congruence.
    + destruct Hc as (_ & _ & ->). split; [done|].
      intros (? & ? & [= <-] & _ & Hne' & _). contradiction.
Qed.

(** The only class that ever leaves the loop is [TelegramError]. *)
Lemma poll_loop_raises (ws : list cycle_env) (st : loop_state) (e : pyexn) :
  verdict (poll_loop ws st) = Raise e → exn_cls e = TelegramError.
Proof.
  revert st. induction ws as [|w ws IH]; intros st; [done|].
  rewrite poll_loop_cons.
  destruct (cycle w st) as [[t st'] [[]|e']] eqn:Hc.
  - specialize (IH st'). destruct (poll_loop ws st') as [[t' st''] r].
    simpl in *. done.
  - simpl. intros [= <-].
    assert (Hv : verdict (cycle w st) = Raise e') by by rewrite Hc.
    apply cycle_raises in Hv as (? & ? & _ & _ & _ & _ & ->). done.
Qed.

(** *** Requests and sleeps of a cycle *)

Lemma get_api_answer_requests (w : cycle_env) (ts : pyval) :
  requests_made (events (get_api_answer w ts)) = [request_params w ts]
  ∧ sleeps (events (get_api_answer w ts)) = [].
Proof.
  unfold get_api_answer, events, request_params. simpl.
  destruct (requests_get w _) as [f|code [body|f|f]]; simpl; try done;
    by case_bool_decide.
Qed.

Lemma cycle_requests_sleeps (w : cycle_env) (st : loop_state) :
  requests_made (trace (cycle w st)) = [request_params w (current_timestamp st)]
  ∧ sleeps (trace (cycle w st)) = [RETRY_PERIOD].
Proof.
  destruct (get_api_answer_requests w (current_timestamp st)) as [Hr Hs].
  unfold requests_made, sleeps in *.
  unfold_loop.
  destruct (get_api_answer w (current_timestamp st)) as [t0 [r|e]]; simpl in *.
  2: { handler_cases w; rewrite !omap_app, ?Hr, ?Hs; simpl; done. }
  destruct r as [| | | | |l|d]; simpl.
  1-6: handler_cases w; rewrite !omap_app, ?Hr, ?Hs; simpl; done.
  pose proof (check_response_events (PDict d)) as H1.
  destruct (check_response (PDict d)) as [t1 [hws|e1]];
    unfold events in H1; simpl in *; subst t1.
  2: { handler_cases w; rewrite !omap_app, ?Hr, ?Hs; simpl; done. }
  destruct hws as [|first rest]; simpl.
  { handler_cases w; rewrite !omap_app, ?Hr, ?Hs; simpl; done. }
  pose proof (parse_status_events first) as H2.
  destruct (parse_status first) as [t2 [m|e2]];
    unfold events in H2; simpl in *; subst t2.
  all: handler_cases w; rewrite !omap_app, ?Hr, ?Hs; simpl; done.
Qed.

(** How the [try] suite ends: with the exception raised before a message
    is there, or with what the delivery of the message does. *)
Lemma try_block_verdict (w : cycle_env) (st : loop_state) :
  verdict (try_block w st) =
    match try_result w st with
    | Raise e => Raise e
    | Ret m =>
        if bool_decide (m ≠ prev_msg st) then
          match bot_send_message w m with
          | Some f => Raise (delivery_error f)
          | None => Ret ()
          end
        else Ret ()
    end.
Proof.
  unfold_loop.
  destruct (get_api_answer w (current_timestamp st)) as [t0 [r|e]]; simpl in *;
    [|done].
  destruct r as [| | | | |l|d]; simpl; try done.
  destruct (check_response (PDict d)) as [t1 [hws|e1]]; simpl in *; [|done].
  destruct hws as [|first rest]; simpl.
  { handler_cases w; done. }
  destruct (parse_status first) as [t2 [m|e2]]; simpl in *; [|done].
  handler_cases w; done.
Qed.

(** *** The claims about the loop *)

Lemma try_result_of_response (w : cycle_env) (st : loop_state)
    (response : pyval) :
  (∀ params, requests_get w params = Response HTTP_OK (JsonBody response)) →
  try_result w st = outcome (message_for w response).
Proof.
  intros Hget. unfold try_result. by rewrite (get_api_answer_ok _ _ response).
Qed.

(** The clock only feeds the default of [.get]: the message of a response
    is the same in every cycle. *)
Lemma message_for_same (w1 w2 : cycle_env) (response : pyval) :
  outcome (message_for w1 response) = outcome (message_for w2 response).
Proof. unfold message_for, outcome. by destruct response. Qed.

(** X20: a fetch that fails by a status code other than 200, or by a
    [RequestException] of the transport or of the body, raises
    [WrongResponseCode] with a descriptive message; the class is outside the
    [NotForSend] family, so the generic handler logs it and sends its
    failure message unless that equals [prev_msg]. *)
Theorem X20_request_faults_are_wrong_response
    (w : cycle_env) (st : loop_state) :
  let params :=
    PDict {[ "from_date" := if truthy (current_timestamp st)
                            then current_timestamp st
                            else PInt (now_request w) ]} in
  fetch_fails (requests_get w params) →
  ∃ e msg rest,
    outcome (get_api_answer w (current_timestamp st)) = Raise e
    ∧ exn_cls e = WrongResponseCode
    ∧ exn_args e = ArgStr msg :: rest
    ∧ contains "API не возвращает 200. " msg = true
    ∧ contains ("Запрос: " +:+ request_text params) msg = true
    ∧ (∀ code body, requests_get w params = Response code body →
                    code ≠ HTTP_OK →
                    contains ("Код ответа " +:+ decimal code +:+ ". ") msg
                    = true)
    ∧ isinstance e NotForSend = false
    ∧ candidate (try_result w st) = Some (failure_message e)
    ∧ Log ERROR (failure_message e) ∈ trace (cycle w st)
    ∧ deliveries (trace (cycle w st)) =
        if bool_decide (failure_message e ≠ prev_msg st)
        then [failure_message e] else [].
Proof.
  intros params Hfail.
  destruct (get_api_answer_fails w (current_timestamp st) Hfail)
    as (msg & rest & Hraise & Hdescr & Hreq & Hcode).
  pose proof (cycle_cases w st) as Hc.
  pose proof (cycle_logs w st) as Hl.
  unfold try_result in *. rewrite Hraise in *. simpl in *.
  eexists _, msg, rest. repeat split; try done.
  case_bool_decide; [|apply Hc].
  destruct (bot_send_message w _); apply Hc.
Qed.

(** C7: when the message of the [try] suite differs from [prev_msg], one
    delivery is attempted; if it fails, the [TelegramError] reaches the
    [NotForSend] handler, which logs it, and [prev_msg] keeps its value; if
    it succeeds, [prev_msg] becomes the message, and only then. *)
Theorem C7_failed_delivery_keeps_prev_msg
    (w : cycle_env) (st : loop_state) (m : string) :
  try_result w st = Ret m → m ≠ prev_msg st →
  let c := cycle w st in
  deliveries (trace c) = [m]
  ∧ (∀ f, bot_send_message w m = Some f →
          verdict (try_block w st) = Raise (delivery_error f)
          ∧ isinstance (delivery_error f) NotForSend = true
          ∧ Log ERROR (failure_message (delivery_error f)) ∈ trace c
          ∧ verdict c = Ret ()
          ∧ prev_msg (final c) = prev_msg st)
  ∧ (bot_send_message w m = None →
     verdict c = Ret () ∧ prev_msg (final c) = m)
  ∧ (prev_msg (final c) = m → bot_send_message w m = None).
Proof.
  intros Htry Hne c.
  pose proof (cycle_cases w st) as Hc.
  pose proof (cycle_logs w st) as Hl.
  rewrite Htry in *. simpl in *. fold c in Hc, Hl.
  rewrite bool_decide_true in Hc, Hl by done.
  destruct Hc as [Hd Hc]. split; [done|].
  destruct (bot_send_message w m) as [f|].
  - destruct Hc as [Hp Hv], Hl as [Ht Hl]. split; [|split].
    + by intros f' [= <-].
    + done.
    + intros Hm. congruence.
  - destruct Hc as [Hp Hv]. by repeat split.
Qed.

(** C8 (amended): after a cycle [current_timestamp] is the [current_date]
    of the decoded response when it has one, the clock reading when the
    response is a mapping without it, and its old value when the fetch
    failed or the response is not a mapping; it does not go down in a
    cycle whose reported date, or clock reading, is an integer that is not
    below it. *)
Theorem C8_timestamp_follows_response (w : cycle_env) (st : loop_state) :
  current_timestamp (final (cycle w st)) =
    match outcome (get_api_answer w (current_timestamp st)) with
    | Ret (PDict d) => default (PInt (now_response w)) (d !! "current_date")
    | _ => current_timestamp st
    end
  ∧ ∀ t : Z,
      current_timestamp st = PInt t →
      (∀ d, outcome (get_api_answer w (current_timestamp st)) = Ret (PDict d) →
            match d !! "current_date" with
            | Some v => ∃ z : Z, v = PInt z ∧ (t ≤ z)%Z
            | None => (t ≤ now_response w)%Z
            end) →
      ∃ t' : Z, current_timestamp (final (cycle w st)) = PInt t' ∧ (t ≤ t')%Z.
Proof.
  rewrite cycle_timestamp. split.
  - by destruct (outcome _) as [[]|].
  - intros t Ht Hrep.
    destruct (outcome _) as [[| | | | | |d]|]; simpl; try by exists t.
    specialize (Hrep d eq_refl).
    destruct (d !! "current_date") as [v|]; simpl.
    + destruct Hrep as (z & -> & Hz). by exists z.
    + by eexists.
Qed.

(** C2 (amended): a cycle attempts a delivery only for a text that
    differs from [prev_msg], and at most one; when the message of the [try]
    suite equals [prev_msg] the cycle logs it and sends nothing; when the
    same decoded response is fed to two cycles in a row, the first of
    which delivers its text with success, the two cycles make exactly one
    delivery attempt; and when the text is the message of the [try] suite
    and its delivery fails in the first cycle, [prev_msg] keeps its value
    and the second cycle attempts the delivery again. *)
Theorem C2_delivery_only_on_change :
  (∀ (w : cycle_env) (st : loop_state) (m : string),
     m ∈ deliveries (trace (cycle w st)) →
     m ≠ prev_msg st ∧ deliveries (trace (cycle w st)) = [m])
  ∧ (∀ (w : cycle_env) (st : loop_state) (m : string),
       try_result w st = Ret m → m = prev_msg st →
       deliveries (trace (cycle w st)) = []
       ∧ Log INFO m ∈ trace (cycle w st)
       ∧ prev_msg (final (cycle w st)) = prev_msg st)
  ∧ (∀ (w1 w2 : cycle_env) (st : loop_state) (response : pyval) (m : string),
       (∀ params,
          requests_get w1 params = Response HTTP_OK (JsonBody response)) →
       (∀ params,
          requests_get w2 params = Response HTTP_OK (JsonBody response)) →
       candidate (try_result w1 st) = Some m → m ≠ prev_msg st →
       bot_send_message w1 m = None →
       deliveries (trace (poll_loop [w1; w2] st)) = [m])
  ∧ (∀ (w1 w2 : cycle_env) (st : loop_state) (response : pyval) (m : string)
       (f : ext_fault),
       (∀ params,
          requests_get w1 params = Response HTTP_OK (JsonBody response)) →
       (∀ params,
          requests_get w2 params = Response HTTP_OK (JsonBody response)) →
       try_result w1 st = Ret m → m ≠ prev_msg st →
       bot_send_message w1 m = Some f →
       prev_msg (final (cycle w1 st)) = prev_msg st
       ∧ verdict (cycle w1 st) = Ret ()
       ∧ deliveries (trace (poll_loop [w1; w2] st)) = [m; m]).
Proof.
  split; [|split; [|split]].
  - intros w st m Hin.
    pose proof (cycle_cases w st) as Hc. simpl in Hc.
    destruct (candidate (try_result w st)) as [m'|].
    + case_bool_decide as Hne.
      * destruct Hc as [Hd _]. rewrite Hd in Hin |- *.
        apply list_elem_of_singleton in Hin as ->. done.
      * destruct Hc as [Hd _]. rewrite Hd in Hin. by apply elem_of_nil in Hin.
    + destruct Hc as [Hd _]. rewrite Hd in Hin. by apply elem_of_nil in Hin.
  - intros w st m Htry Heq.
    pose proof (cycle_cases w st) as Hc.
    pose proof (cycle_logs w st) as Hl.
    rewrite Htry in *. simpl in *.
    rewrite bool_decide_false in Hc, Hl by (by intros []).
    by destruct Hc as (? & ? & _).
  - intros w1 w2 st response m Hget1 Hget2 Hcand Hne Hsend.
    pose proof (cycle_cases w1 st) as Hc1. simpl in Hc1.
    rewrite Hcand, bool_decide_true, Hsend in Hc1 by done.
    destruct Hc1 as (Hd1 & Hp1 & Hv1).
    rewrite poll_loop_cons.
    destruct (cycle w1 st) as [[t1 st1] r1].
    unfold trace, final, verdict in Hd1, Hp1, Hv1.
    simpl in Hd1, Hp1, Hv1. subst r1.
    pose proof (cycle_cases w2 st1) as Hc2. simpl in Hc2.
    rewrite (try_result_of_response w2 st1 response),
      (message_for_same w2 w1), <- (try_result_of_response w1 st response),
      Hcand, Hp1 in Hc2 by done.
    rewrite bool_decide_false in Hc2 by (by intros []).
    destruct Hc2 as (Hd2 & _ & Hv2).
    change (poll_loop [w2] st1) with ((cycle w2;; poll_loop []) st1).
    unfold mbind, M_bind.
    destruct (cycle w2 st1) as [[t2 st2] r2].
    unfold trace, verdict in *. simpl in *. subst r2. simpl.
    by rewrite !deliveries_app, Hd1, Hd2.
  - intros w1 w2 st response m f Hget1 Hget2 Htry Hne Hsend.
    pose proof (cycle_cases w1 st) as Hc1. simpl in Hc1.
    rewrite Htry in Hc1. simpl in Hc1.
    rewrite bool_decide_true, Hsend in Hc1 by done.
    destruct Hc1 as (Hd1 & Hp1 & Hv1).
    split; [done|]. split; [done|].
    rewrite poll_loop_cons.
    destruct (cycle w1 st) as [[t1 st1] r1].
    unfold trace, final, verdict in Hd1, Hp1, Hv1.
    simpl in Hd1, Hp1, Hv1. subst r1.
    pose proof (cycle_cases w2 st1) as Hc2. simpl in Hc2.
    rewrite (try_result_of_response w2 st1 response),
      (message_for_same w2 w1), <- (try_result_of_response w1 st response),
      Htry in Hc2 by done.
    simpl in Hc2. rewrite Hp1, bool_decide_true in Hc2 by done.
    destruct Hc2 as [Hd2 Hc2].
    assert (Hv2 : verdict (cycle w2 st1) = Ret ())
      by (destruct (bot_send_message w2 m); apply Hc2).
    change (poll_loop [w2] st1) with ((cycle w2;; poll_loop []) st1).
    unfold mbind, M_bind.
    destruct (cycle w2 st1) as [[t2 st2] r2].
    unfold trace, verdict in *. simpl in *. subst r2. simpl.
    by rewrite !deliveries_app, Hd1, Hd2.
Qed.

End Loop.

(** ** The theorems at the sample inputs *)

Lemma X19_parse_status_verdicts_witness :
  hw1_approved !! "homework_name" = Some (PStr "hw1")
  ∧ outcome (@parse_status sample_interp (PDict hw1_approved))
    = Ret hw1_sentence.
Proof.
  assert (Hname : hw1_approved !! "homework_name" = Some (PStr "hw1"))
    by (vm_compute; reflexivity).
  split; [exact Hname|].
  destruct (@X19_parse_status_verdicts sample_interp hw1_approved (PStr "hw1")
              Hname) as (_ & _ & _ & Hexact & _).
  apply Hexact; vm_compute; reflexivity.
Defined.

(** C3 fails on the code: the status of a record that has [homework_name]
    is hashed by [not in HOMEWORK_VERDICTS] before it is compared, so a
    status that is a list makes [parse_status] fail with [TypeError], where
    its docstring and the claim promise [ValueError] for a status that is
    not recognized. *)
Theorem C3_list_status_raises_type_error :
  hw1_list_status !! "homework_name" = Some (PStr "hw1")
  ∧ hw1_list_status !! "status" = Some (PList [])
  ∧ raised_class (outcome (@parse_status sample_interp (PDict hw1_list_status)))
    = Some TypeError.
Proof. repeat split; vm_compute; reflexivity. Qed.

Lemma C5_missing_key_is_empty_response_witness :
  (response_no_date !! "homeworks" = None
   ∨ response_no_date !! "current_date" = None)
  ∧ ∃ e, outcome (@check_response sample_interp (PDict response_no_date))
         = Raise e
         ∧ exn_cls e = EmptyResponseFromAPI
         ∧ isinstance e NotForSend = true
         ∧ isinstance e TypeError = false.
Proof.
  assert (Hmiss : response_no_date !! "homeworks" = None
                  ∨ response_no_date !! "current_date" = None)
    by (right; vm_compute; reflexivity).
  split; [exact Hmiss|].
  exact (@C5_missing_key_is_empty_response sample_interp response_no_date
           Hmiss).
Defined.

Lemma C6_homeworks_list_returned_unchanged_witness :
  response_hw1 !! "homeworks" = Some (PList [PDict hw1_approved])
  ∧ is_Some (response_hw1 !! "current_date")
  ∧ outcome (@check_response sample_interp (PDict response_hw1))
    = Ret [PDict hw1_approved].
Proof.
  assert (Hh : response_hw1 !! "homeworks" = Some (PList [PDict hw1_approved]))
    by (vm_compute; reflexivity).
  assert (Hd : is_Some (response_hw1 !! "current_date"))
    by (exists (PInt 1700000600); vm_compute; reflexivity).
  split; [exact Hh|]. split; [exact Hd|].
  exact (@C6_homeworks_list_returned_unchanged sample_interp response_hw1
           (PList [PDict hw1_approved]) Hh Hd).
Defined.

Lemma C10_name_checked_before_status_witness :
  nameless_approved !! "homework_name" = None
  ∧ ∃ e, outcome (@parse_status sample_interp (PDict nameless_approved))
         = Raise e
         ∧ exn_cls e = KeyError.
Proof.
  assert (Hname : nameless_approved !! "homework_name" = None)
    by (vm_compute; reflexivity).
  split; [exact Hname|].
  exact (proj1 (@C10_name_checked_before_status sample_interp)
           nameless_approved Hname).
Defined.

Lemma C9_falsy_timestamp_replaced_by_clock_witness :
  truthy (PInt 0) = false
  ∧ requests_made (events (@get_api_answer sample_interp hw1_bot_up (PInt 0)))
    = [PDict {[ "from_date" := PInt 1700000100 ]}].
Proof.
  split; [reflexivity|].
  exact (proj1 (@C9_falsy_timestamp_replaced_by_clock sample_interp
                  hw1_bot_up (PInt 0)) eq_refl).
Defined.

Lemma X20_request_faults_are_wrong_response_witness :
  fetch_fails (requests_get unavailable_bot_down
                 (PDict {[ "from_date" := PInt 1700000000 ]}))
  ∧ ∃ e, outcome (@get_api_answer sample_interp unavailable_bot_down
                    (current_timestamp start)) = Raise e
         ∧ exn_cls e = WrongResponseCode
         ∧ isinstance e NotForSend = false
         ∧ deliveries (trace (@cycle sample_interp unavailable_bot_down start))
           = [@failure_message sample_interp e].
Proof.
  assert (Hfail : fetch_fails (requests_get unavailable_bot_down
                                 (PDict {[ "from_date" := PInt 1700000000 ]})))
    by (left; discriminate).
  split; [exact Hfail|].
  destruct (@X20_request_faults_are_wrong_response sample_interp
              unavailable_bot_down start Hfail)
    as (e & msg & rest & Hraise & Hcls & _ & _ & _ & _ & Hnfs & _ & _ & Hd).
  exists e. repeat split; assumption.
Defined.

(** C4 fails on the code: the endpoint answers 200 with a body that is
    not JSON and [response.json()] raises the decoder's
    [json.JSONDecodeError]; that is a [ValueError] and no
    [RequestException], so the [except] clause of [get_api_answer] does not
    wrap it and it leaves the function as it is, where the docstring and
    the claim promise [WrongResponseCode]. It still reaches the generic
    handler, which sends its failure message. *)
Theorem C4_decoder_error_is_not_wrapped :
  requests_get html_body_bot_up (request_params html_body_bot_up
                                   (current_timestamp start))
  = Response 200 (JsonInvalid not_json)
  ∧ outcome (@get_api_answer sample_interp html_body_bot_up
               (current_timestamp start))
    = Raise (decode_error not_json)
  ∧ exn_cls (decode_error not_json) = JSONDecodeError
  ∧ issubclass JSONDecodeError ValueError = true
  ∧ issubclass JSONDecodeError WrongResponseCode = false
  ∧ deliveries (trace (@cycle sample_interp html_body_bot_up start))
    = ["Сбой в работе программы: " +:+ fault_str not_json].
Proof.
  split; [reflexivity|]. split; [vm_compute; reflexivity|].
  split; [reflexivity|]. split; [reflexivity|]. split; [reflexivity|].
  vm_compute. reflexivity.
Qed.

Lemma C7_failed_delivery_keeps_prev_msg_witness :
  @try_result sample_interp hw1_bot_down start = Ret hw1_sentence
  ∧ hw1_sentence ≠ prev_msg start
  ∧ bot_send_message hw1_bot_down hw1_sentence = Some timed_out
  ∧ verdict (@try_block sample_interp hw1_bot_down start)
    = Raise (delivery_error timed_out)
  ∧ verdict (@cycle sample_interp hw1_bot_down start) = Ret ()
  ∧ prev_msg (final (@cycle sample_interp hw1_bot_down start))
    = prev_msg start.
Proof.
  assert (Htry : @try_result sample_interp hw1_bot_down start
                 = Ret hw1_sentence) by (vm_compute; reflexivity).
  assert (Hne : hw1_sentence ≠ prev_msg start) by discriminate.
  split; [exact Htry|]. split; [exact Hne|]. split; [reflexivity|].
  destruct (@C7_failed_delivery_keeps_prev_msg sample_interp hw1_bot_down
              start hw1_sentence Htry Hne) as (_ & Hfault & _).
  destruct (Hfault timed_out eq_refl) as (Hblock & _ & _ & Hv & Hp).
  by repeat split.
Defined.

(** C2 as stated fails: the same response in two cycles in a row, with the
    bot down, is offered to the bot twice. *)
Lemma C2_same_response_sent_twice_when_bot_down :
  deliveries (trace (@poll_loop sample_interp [hw1_bot_down; hw1_bot_down]
                       start))
  = [hw1_sentence; hw1_sentence]
  ∧ verdict (@poll_loop sample_interp [hw1_bot_down; hw1_bot_down] start)
    = Ret ().
Proof. split; vm_compute; reflexivity. Qed.

Lemma C2_delivery_only_on_change_witness :
  (∀ params,
     requests_get hw1_bot_up params
     = Response HTTP_OK (JsonBody (PDict response_hw1)))
  ∧ @candidate sample_interp (@try_result sample_interp hw1_bot_up start)
    = Some hw1_sentence
  ∧ hw1_sentence ≠ prev_msg start
  ∧ bot_send_message hw1_bot_up hw1_sentence = None
  ∧ deliveries (trace (@poll_loop sample_interp [hw1_bot_up; hw1_bot_up]
                         start))
    = [hw1_sentence].
Proof.
  assert (Hget : ∀ params,
             requests_get hw1_bot_up params
             = Response HTTP_OK (JsonBody (PDict response_hw1)))
    by (intros params; reflexivity).
  assert (Hcand : @candidate sample_interp
                    (@try_result sample_interp hw1_bot_up start)
                  = Some hw1_sentence) by (vm_compute; reflexivity).
  assert (Hne : hw1_sentence ≠ prev_msg start) by discriminate.
  split; [exact Hget|]. split; [exact Hcand|]. split; [exact Hne|].
  split; [reflexivity|].
  exact (proj1 (proj2 (proj2 (@C2_delivery_only_on_change sample_interp)))
           hw1_bot_up hw1_bot_up start (PDict response_hw1) hw1_sentence
           Hget Hget Hcand Hne eq_refl).
Defined.

(** C8 as stated fails: a response that reports an earlier date moves
    [current_timestamp] back. *)
Lemma C8_timestamp_moves_back :
  current_timestamp start = PInt 1700000000
  ∧ current_timestamp (final (@cycle sample_interp old_date_bot_up start))
    = PInt 5
  ∧ (5 < 1700000000)%Z.
Proof. repeat split; vm_compute; reflexivity. Qed.

Lemma C8_timestamp_follows_response_witness :
  current_timestamp start = PInt 1700000000
  ∧ ∃ t' : Z,
      current_timestamp (final (@cycle sample_interp hw1_bot_up start))
      = PInt t'
      ∧ (1700000000 ≤ t')%Z.
Proof.
  split; [reflexivity|].
  apply (proj2 (@C8_timestamp_follows_response sample_interp hw1_bot_up start)
           1700000000%Z eq_refl).
  intros d Hd. vm_compute in Hd. injection Hd as <-.
  exists 1700000600%Z. split; [vm_compute; reflexivity | discriminate].
Defined.

(** C1 fails on the code: the fetch answers 503 and the bot is down, so the
    generic handler's own delivery raises [TelegramError] inside the
    handler; the exception leaves the loop after the first cycle's sleep
    and the second cycle never runs. *)
Theorem C1_failure_notification_fault_leaves_loop :
  verdict (@poll_loop sample_interp [unavailable_bot_down; hw1_bot_up] start)
  = Raise (delivery_error timed_out)
  ∧ exn_cls (delivery_error timed_out) = TelegramError
  ∧ length (requests_made
              (trace (@poll_loop sample_interp
                        [unavailable_bot_down; hw1_bot_up] start))) = 1%nat
  ∧ last (trace (@poll_loop sample_interp
                   [unavailable_bot_down; hw1_bot_up] start))
    = Some (Sleep RETRY_PERIOD).
Proof.
  split; [vm_compute; reflexivity|]. split; [reflexivity|].
  split; vm_compute; reflexivity.
Qed.

(** * Beyond the claims: startup, validation edges and loop invariants *)

Set Warnings "-clear-no-such-hyp".

Section Startup.
Context `{Interp}.

Lemma truthy_env_value (o : option string) :
  truthy (env_value o) = false ↔ token_absent o.
Proof.
  unfold token_absent. destruct o as [s|]; simpl; [|naive_solver].
  case_bool_decide; naive_solver.
Qed.

Lemma check_tokens_false (env : process_env) :
  outcome (check_tokens env) = Ret false ↔
  token_absent PRACTICUM_TOKEN ∨ token_absent (TELEGRAM_TOKEN env)
  ∨ token_absent (TELEGRAM_CHAT_ID env).
Proof.
  rewrite <- !truthy_env_value. unfold check_tokens, outcome. simpl.
  destruct (truthy (env_value PRACTICUM_TOKEN)),
    (truthy (env_value (TELEGRAM_TOKEN env))),
    (truthy (env_value (TELEGRAM_CHAT_ID env))); simpl; naive_solver.
Qed.

Lemma check_tokens_events (env : process_env) :
  ∃ b, check_tokens env = ([Log INFO "Проверка наличия всех токенов."], Ret b).
Proof. by eexists. Qed.

(** X1: [check_tokens] never fails; it answers True exactly when the three
    environment values are all set to a string that is not empty (an empty
    string counts as missing), and False exactly when one of them is unset
    or empty. *)
Theorem X1_check_tokens_needs_all_three (env : process_env) :
  (outcome (check_tokens env) = Ret true ↔
   ∃ a b c, PRACTICUM_TOKEN = Some a ∧ TELEGRAM_TOKEN env = Some b
            ∧ TELEGRAM_CHAT_ID env = Some c
            ∧ a ≠ "" ∧ b ≠ "" ∧ c ≠ "")
  ∧ (outcome (check_tokens env) = Ret false ↔
     token_absent PRACTICUM_TOKEN ∨ token_absent (TELEGRAM_TOKEN env)
     ∨ token_absent (TELEGRAM_CHAT_ID env)).
Proof.
  split; [|apply check_tokens_false].
  unfold check_tokens, outcome. simpl.
  destruct PRACTICUM_TOKEN as [a|], (TELEGRAM_TOKEN env) as [b|],
    (TELEGRAM_CHAT_ID env) as [c|]; simpl;
    repeat case_bool_decide; simpl; naive_solver.
Qed.

(** X2: when one of the three environment values is unset or empty, [main]
    logs the critical message and stops with [sys.exit] of that message; it
    builds no bot, sends nothing, requests nothing and never sleeps,
    whatever the worlds of the cycles would have been. *)
Theorem X2_main_exits_without_tokens
    (env : process_env) (ws : list cycle_env) :
  token_absent PRACTICUM_TOKEN ∨ token_absent (TELEGRAM_TOKEN env)
  ∨ token_absent (TELEGRAM_CHAT_ID env) →
  main env ws =
    ([Log INFO "Проверка наличия всех токенов.";
      Log CRITICAL no_token_message],
     Some (SystemExit no_token_message))
  ∧ deliveries (main env ws).1 = []
  ∧ requests_made (main env ws).1 = []
  ∧ sleeps (main env ws).1 = [].
Proof.
  intros Habsent. apply check_tokens_false in Habsent.
  destruct (check_tokens_events env) as [b Hb].
  unfold main. rewrite Hb in *. unfold outcome in Habsent. simpl in Habsent.
  by simplify_eq.
Qed.

(** X3: the start message is sent outside the [try] statement: when all
    tokens are there and the bot is built but the delivery of the start
    message fails, the [TelegramError] of [send_message] leaves [main]
    before the loop is entered, so no request is made and nothing
    sleeps. *)
Theorem X3_start_message_fault_stops_main
    (env : process_env) (ws : list cycle_env) (f : ext_fault) :
  outcome (check_tokens env) = Ret true →
  telegram_Bot env = None →
  bot_send_message (start_world env) start_message = Some f →
  main env ws =
    ([Log INFO "Проверка наличия всех токенов.";
      Log DEBUG "Начало отправки статуса в telegram.";
      BotSend start_message;
      Log ERROR "Ошибка отправки статуса в telegram."],
     Some (Uncaught (delivery_error f)))
  ∧ requests_made (main env ws).1 = []
  ∧ sleeps (main env ws).1 = [].
Proof.
  intros Hok Hbot Hsend.
  destruct (check_tokens_events env) as [b Hb].
  unfold main. rewrite Hb in *. unfold outcome in Hok. simpl in Hok.
  simplify_eq. rewrite Hbot. unfold send_message. simpl. by rewrite Hsend.
Qed.

Lemma requests_made_app (t1 t2 : list event) :
  requests_made (t1 ++ t2) = requests_made t1 ++ requests_made t2.
Proof. apply omap_app. Qed.

(** The shape of [main] once startup went through. *)
Lemma main_started (env : process_env) (ws : list cycle_env) :
  outcome (check_tokens env) = Ret true →
  telegram_Bot env = None →
  bot_send_message (start_world env) start_message = None →
  (main env ws).1 =
    [Log INFO "Проверка наличия всех токенов.";
     Log DEBUG "Начало отправки статуса в telegram.";
     BotSend start_message;
     Log INFO "Статус отправлен в telegram.";
     Log INFO start_message]
    ++ trace (poll_loop ws {| current_timestamp := PInt (now_start env);
                              prev_msg := "" |}).
Proof.
  intros Hok Hbot Hsend.
  destruct (check_tokens_events env) as [b Hb].
  unfold main. rewrite Hb in *. unfold outcome in Hok. simpl in Hok.
  simplify_eq. rewrite Hbot, (send_message_ok _ _ Hsend).
  by destruct (poll_loop ws _) as [[t2 st2] r].
Qed.

(** X4: [main] makes no HTTP request unless the tokens are all there, the
    bot was built and the start message was delivered; and the first text
    it ever hands to the bot is the start message. *)
Theorem X4_nothing_before_start_message
    (env : process_env) (ws : list cycle_env) :
  (requests_made (main env ws).1 ≠ [] →
   outcome (check_tokens env) = Ret true ∧ telegram_Bot env = None
   ∧ bot_send_message (start_world env) start_message = None)
  ∧ (∀ m, head (deliveries (main env ws).1) = Some m → m = start_message).
Proof.
  destruct (check_tokens_events env) as [b Hb].
  destruct b.
  2: { unfold main. rewrite Hb. by split. }
  destruct (telegram_Bot env) as [f|] eqn:Hbot.
  { unfold main. rewrite Hb, Hbot. by split. }
  destruct (bot_send_message (start_world env) start_message) as [f|] eqn:Hsend.
  { unfold main. rewrite Hb, Hbot, (send_message_fault _ _ _ Hsend). simpl.
    split; [done|]. by intros m [= <-]. }
  assert (Hok : outcome (check_tokens env) = Ret true) by by rewrite Hb.
  rewrite (main_started env ws Hok Hbot Hsend). simpl.
  split; [done|]. by intros m [= <-].
Qed.

(** X5: after a startup that went through, the first cycle asks the API
    for the statuses since the clock reading taken at startup (when that
    reading is not 0). *)
Theorem X5_first_poll_since_startup
    (env : process_env) (w : cycle_env) (ws : list cycle_env) :
  outcome (check_tokens env) = Ret true →
  telegram_Bot env = None →
  bot_send_message (start_world env) start_message = None →
  now_start env ≠ 0 →
  head (requests_made (main env (w :: ws)).1)
  = Some (PDict {[ "from_date" := PInt (now_start env) ]}).
Proof.
  intros Hok Hbot Hsend Hnow.
  rewrite (main_started env (w :: ws) Hok Hbot Hsend), poll_loop_cons.
  rewrite requests_made_app. simpl.
  pose proof (cycle_requests_sleeps w
                {| current_timestamp := PInt (now_start env); prev_msg := "" |})
    as [Hr _].
  destruct (cycle w _) as [[t st'] [[]|e]]; unfold trace in *; simpl in *.
  - destruct (poll_loop ws st') as [[t' st''] r]. simpl.
    rewrite requests_made_app, Hr. unfold request_params. simpl.
    by rewrite (proj2 (Z.eqb_neq _ _) Hnow).
  - rewrite Hr. unfold request_params. simpl.
    by rewrite (proj2 (Z.eqb_neq _ _) Hnow).
Qed.

End Startup.

Section Edges.
Context `{Interp}.

Lemma get_api_answer_ret (w : cycle_env) (ts v : pyval) :
  outcome (get_api_answer w ts) = Ret v ↔
  requests_get w (request_params w ts) = Response HTTP_OK (JsonBody v).
Proof.
  unfold get_api_answer, outcome, request_params. simpl.
  destruct (requests_get w _) as [f|code [body|f|f]]; simpl;
    try case_bool_decide; simpl; naive_solver.
Qed.




(** X7: a response that is not a mapping makes [check_response] fail with
    [TypeError], a class outside the [NotForSend] family. *)
Theorem X7_check_response_rejects_non_mapping (response : pyval) :
  is_mapping response = false →
  ∃ e, outcome (check_response response) = Raise e
       ∧ exn_cls e = TypeError
       ∧ exn_args e = [ArgStr "Ответ API не является dict."]
       ∧ isinstance e NotForSend = false.
Proof. intros Hm. destruct response; try done; by eexists. Qed.

Lemma message_for_not_mapping (w : cycle_env) (response : pyval) :
  is_mapping response = false →
  outcome (message_for w response) =
    Raise {| exn_cls := AttributeError;
             exn_args := [ArgStr (interp_text (NoAttribute response "get"))] |}.
Proof. intros Hm. by destruct response. Qed.

Lemma message_for_mapping (w : cycle_env) (d : gmap string pyval) :
  outcome (message_for w (PDict d)) =
    match outcome (check_response (PDict d)) with
    | Raise e => Raise e
    | Ret [] => Ret no_new_statuses
    | Ret (first :: _) => outcome (parse_status first)
    end.
Proof.
  unfold message_for, outcome. simpl.
  destruct (check_response (PDict d)) as [t [[|first rest]|e]]; simpl;
    try done.
  by destruct (parse_status first).
Qed.

Lemma try_result_decoded (w : cycle_env) (st : loop_state) (response : pyval) :
  requests_get w (request_params w (current_timestamp st))
  = Response HTTP_OK (JsonBody response) →
  try_result w st = outcome (message_for w response).
Proof.
  intros Hget. apply get_api_answer_ret in Hget.
  unfold try_result. by rewrite Hget.
Qed.

(** What a cycle attempts to deliver, read off [cycle_cases]. *)
Lemma cycle_deliveries (w : cycle_env) (st : loop_state) :
  deliveries (trace (cycle w st)) =
    match candidate (try_result w st) with
    | Some m => if bool_decide (m ≠ prev_msg st) then [m] else []
    | None => []
    end.
Proof.
  pose proof (cycle_cases w st) as Hc. simpl in Hc.
  destruct (candidate _) as [m|]; [|apply Hc].
  case_bool_decide; apply Hc.
Qed.

(** X8: in the loop a decoded response that is not a mapping never reaches
    [check_response]: line 237 fails first with [AttributeError], so the
    failure that is logged and notified is the interpreter's, the
    timestamp keeps its value, and the failure message is sent unless it
    equals [prev_msg]. *)
Theorem X8_non_mapping_response_fails_at_get
    (w : cycle_env) (st : loop_state) (response : pyval) :
  requests_get w (request_params w (current_timestamp st))
  = Response HTTP_OK (JsonBody response) →
  is_mapping response = false →
  let e := {| exn_cls := AttributeError;
              exn_args := [ArgStr (interp_text (NoAttribute response "get"))] |}
  in
  verdict (try_block w st) = Raise e
  ∧ Log ERROR (failure_message e) ∈ trace (cycle w st)
  ∧ current_timestamp (final (cycle w st)) = current_timestamp st
  ∧ deliveries (trace (cycle w st)) =
      if bool_decide (failure_message e ≠ prev_msg st)
      then [failure_message e] else [].
Proof.
  intros Hget Hm e.
  pose proof (try_result_decoded w st response Hget) as Htry.
  rewrite (message_for_not_mapping _ _ Hm) in Htry. fold e in Htry.
  pose proof (cycle_logs w st) as Hl.
  rewrite try_block_verdict, cycle_deliveries, cycle_timestamp, Htry in *.
  apply get_api_answer_ret in Hget. rewrite Hget.
  repeat split; try done. by destruct response.
Qed.


(** X9: a homework entry that is not a mapping never yields a message. A
    number, a boolean or null is not a container ([TypeError]); a string
    or a list is searched for the text [homework_name] (as a substring, as
    an element): without it the entry fails with [KeyError], with it the
    key check passes and the following [.get] fails with
    [AttributeError]. *)
Theorem X9_parse_status_rejects_non_mapping (homework : pyval) :
  is_mapping homework = false →
  ∃ e, outcome (parse_status homework) = Raise e
       ∧ match homework with
         | PStr s =>
             exn_cls e = if contains "homework_name" s then AttributeError
                         else KeyError
         | PList l =>
             (PStr "homework_name" ∈ l → exn_cls e = AttributeError)
             ∧ (PStr "homework_name" ∉ l → exn_cls e = KeyError)
         | _ => exn_cls e = TypeError
         end.
Proof.
  intros Hm. unfold parse_status, outcome.
  destruct homework as [| | | | s |l|d]; simpl; try done; try by eexists.
  - destruct (contains _ s); simpl; by eexists.
  - destruct (existsb _ l) eqn:Hex; simpl; eexists; (split; [done|]); simpl.
    + split; [done|]. intros Hnot. exfalso. apply Hnot.
      apply existsb_exists in Hex as (v & Hin & Hv).
      destruct v; try done. apply bool_decide_eq_true in Hv as ->.
      by apply list_elem_of_In.
    + split; [|done]. intros Hin. exfalso.
      assert (Htrue : existsb (λ v, match v with
                                    | PStr s => bool_decide (s = "homework_name")
                                    | _ => false
                                    end) l = true); [|congruence].
      apply existsb_exists. exists (PStr "homework_name").
      split; [by apply list_elem_of_In | by apply bool_decide_eq_true].
Qed.

Lemma check_response_missing (d : gmap string pyval) :
  d !! "homeworks" = None ∨ d !! "current_date" = None →
  outcome (check_response (PDict d)) = Raise empty_response_error.
Proof.
  intros Hmiss. rewrite check_response_dict.
  destruct Hmiss as [-> | Hdate]; [done|]. rewrite Hdate.
  by destruct (d !! "homeworks") as [[]|].
Qed.



(** X11: for a decoded mapping that lacks [homeworks] or [current_date]
    the cycle only logs the failure: nothing is handed to the bot,
    [prev_msg] keeps its value and the loop goes on; but
    [current_timestamp] was assigned before the validation failed, so it
    has already moved to the reported date, or to the clock reading when
    the date is what is missing. *)
Theorem X11_empty_response_is_only_logged
    (w : cycle_env) (st : loop_state) (d : gmap string pyval) :
  requests_get w (request_params w (current_timestamp st))
  = Response HTTP_OK (JsonBody (PDict d)) →
  d !! "homeworks" = None ∨ d !! "current_date" = None →
  verdict (try_block w st) = Raise empty_response_error
  ∧ deliveries (trace (cycle w st)) = []
  ∧ Log ERROR (failure_message empty_response_error) ∈ trace (cycle w st)
  ∧ verdict (cycle w st) = Ret ()
  ∧ prev_msg (final (cycle w st)) = prev_msg st
  ∧ current_timestamp (final (cycle w st))
    = default (PInt (now_response w)) (d !! "current_date").
Proof.
  intros Hget Hmiss.
  pose proof (try_result_decoded w st _ Hget) as Htry.
  rewrite message_for_mapping, (check_response_missing d Hmiss) in Htry.
  pose proof (cycle_cases w st) as Hc.
  pose proof (cycle_logs w st) as Hl.
  rewrite try_block_verdict, cycle_timestamp, Htry in *.
  apply get_api_answer_ret in Hget. rewrite Hget.
  simpl in Hc. destruct Hc as (Hd & Hp & Hv). by repeat split.
Qed.

(** X12: for a decoded mapping with both keys and an empty list of
    homeworks the message of the cycle is the fixed text for no news; it is
    sent only when [prev_msg] is another text, and merely logged at info
    level when [prev_msg] is that text already; no exception leaves the
    cycle. *)
Theorem X12_no_homeworks_message
    (w : cycle_env) (st : loop_state) (d : gmap string pyval) :
  requests_get w (request_params w (current_timestamp st))
  = Response HTTP_OK (JsonBody (PDict d)) →
  d !! "homeworks" = Some (PList []) →
  is_Some (d !! "current_date") →
  try_result w st = Ret no_new_statuses
  ∧ deliveries (trace (cycle w st)) =
      (if bool_decide (no_new_statuses ≠ prev_msg st)
       then [no_new_statuses] else [])
  ∧ (prev_msg st = no_new_statuses →
     Log INFO no_new_statuses ∈ trace (cycle w st)
     ∧ prev_msg (final (cycle w st)) = prev_msg st)
  ∧ verdict (cycle w st) = Ret ().
Proof.
  intros Hget Hh [c Hc].
  pose proof (try_result_decoded w st _ Hget) as Htry.
  rewrite message_for_mapping, check_response_dict, Hh, Hc in Htry.
  pose proof (cycle_cases w st) as Hcases.
  pose proof (cycle_logs w st) as Hl.
  rewrite cycle_deliveries, Htry in *. simpl in *.
  split; [done|]. split; [done|]. split.
  - intros Hp. rewrite bool_decide_false in Hcases, Hl by (by intros []).
    by destruct Hcases as (_ & ? & _).
  - case_bool_decide; [|apply Hcases].
    destruct (bot_send_message w no_new_statuses); apply Hcases.
Qed.

(** X13: only the first entry of [homeworks] is looked at: for a decoded
    mapping with both keys and a list that is not empty, the message of
    the cycle, or its failure, is that of [parse_status] on the first entry,
    whatever follows it in the list. *)
Theorem X13_only_first_homework_counts
    (w : cycle_env) (st : loop_state) (d : gmap string pyval)
    (first : pyval) (rest : list pyval) :
  requests_get w (request_params w (current_timestamp st))
  = Response HTTP_OK (JsonBody (PDict d)) →
  d !! "homeworks" = Some (PList (first :: rest)) →
  is_Some (d !! "current_date") →
  try_result w st = outcome (parse_status first)
  ∧ deliveries (trace (cycle w st)) =
      match candidate (outcome (parse_status first)) with
      | Some m => if bool_decide (m ≠ prev_msg st) then [m] else []
      | None => []
      end.
Proof.
  intros Hget Hh [c Hc].
  pose proof (try_result_decoded w st _ Hget) as Htry.
  rewrite message_for_mapping, check_response_dict, Hh, Hc in Htry.
  by rewrite cycle_deliveries, Htry.
Qed.

End Edges.

Section Invariants.
Context `{Interp}.

Lemma poll_loop_cons_obs (w : cycle_env) (ws : list cycle_env)
    (st : loop_state) :
  let c := cycle w st in
  match verdict c with
  | Ret _ =>
      trace (poll_loop (w :: ws) st) = trace c ++ trace (poll_loop ws (final c))
      ∧ final (poll_loop (w :: ws) st) = final (poll_loop ws (final c))
      ∧ verdict (poll_loop (w :: ws) st) = verdict (poll_loop ws (final c))
  | Raise e =>
      trace (poll_loop (w :: ws) st) = trace c
      ∧ final (poll_loop (w :: ws) st) = final c
      ∧ verdict (poll_loop (w :: ws) st) = Raise e
  end.
Proof.
  rewrite poll_loop_cons. unfold trace, final, verdict.
  destruct (cycle w st) as [[t st'] [[]|e]]; simpl; [|done].
  by destruct (poll_loop ws st') as [[t' st''] r].
Qed.

Lemma sleeps_app (t1 t2 : list event) :
  sleeps (t1 ++ t2) = sleeps t1 ++ sleeps t2.
Proof. apply omap_app. Qed.

(** X14: whatever happens in it, a cycle makes exactly one HTTP request,
    with the timestamp of the loop (or the clock when that is falsy) as
    [from_date], hands at most one text to the bot, and sleeps exactly once,
    for [RETRY_PERIOD], as its last act; this holds also when an exception
    leaves the cycle. *)
Theorem X14_one_request_one_sleep (w : cycle_env) (st : loop_state) :
  requests_made (trace (cycle w st))
  = [request_params w (current_timestamp st)]
  ∧ sleeps (trace (cycle w st)) = [RETRY_PERIOD]
  ∧ last (trace (cycle w st)) = Some (Sleep RETRY_PERIOD)
  ∧ (length (deliveries (trace (cycle w st))) ≤ 1)%nat.
Proof.
  destruct (cycle_requests_sleeps w st) as [Hr Hs].
  destruct (cycle_sleeps w st) as [t Ht].
  split; [done|]. split; [done|]. split.
  - rewrite Ht. apply last_snoc.
  - rewrite cycle_deliveries. destruct (candidate _); simpl; [|lia].
    case_bool_decide; simpl; lia.
Qed.

(** X15: an exception leaves a cycle exactly when the [try] suite raised
    an exception outside the [NotForSend] family, its failure message
    differs from [prev_msg], and the bot fails on that message; what leaves
    is then the [TelegramError] of that delivery, and [prev_msg] keeps its
    value. *)
Theorem X15_cycle_escape_iff (w : cycle_env) (st : loop_state) (e : pyexn) :
  (verdict (cycle w st) = Raise e ↔
   ∃ e0 f, verdict (try_block w st) = Raise e0
           ∧ isinstance e0 NotForSend = false
           ∧ failure_message e0 ≠ prev_msg st
           ∧ bot_send_message w (failure_message e0) = Some f
           ∧ e = delivery_error f)
  ∧ (verdict (cycle w st) = Raise e →
     exn_cls e = TelegramError
     ∧ prev_msg (final (cycle w st)) = prev_msg st).
Proof.
  assert (Htry : ∀ e0, isinstance e0 NotForSend = false →
                       (verdict (try_block w st) = Raise e0 ↔
                        try_result w st = Raise e0)).
  { intros e0 Hn. rewrite try_block_verdict.
    destruct (try_result w st) as [m|e1]; [|split; by intros [= <-]].
    case_bool_decide; [|by split].
    destruct (bot_send_message w m) as [f|]; [|by split].
    split; [|done]. intros [= <-]. done. }
  split.
  - rewrite cycle_raises. split.
    + intros (e0 & f & He0 & Hn & Hrest). exists e0, f.
      split; [by apply Htry | done].
    + intros (e0 & f & He0 & Hn & Hrest). exists e0, f.
      split; [by apply Htry | done].
  - intros Hv. pose proof Hv as Hv'.
    apply cycle_raises in Hv' as (e0 & f & He0 & Hn & Hne & Hs & ->).
    split; [done|].
    pose proof (cycle_cases w st) as Hc. simpl in Hc.
    rewrite He0 in Hc. simpl in Hc.
    rewrite Hn, bool_decide_true, Hs in Hc by done. apply Hc.
Qed.

(** X16: as long as the bot never fails, no exception ever leaves the loop:
    every cycle is run, each makes one request and each ends in one sleep
    of [RETRY_PERIOD]. *)
Theorem X16_loop_runs_while_bot_answers
    (ws : list cycle_env) (st : loop_state) :
  (∀ w m, w ∈ ws → bot_send_message w m = None) →
  verdict (poll_loop ws st) = Ret ()
  ∧ length (requests_made (trace (poll_loop ws st))) = length ws
  ∧ sleeps (trace (poll_loop ws st)) = replicate (length ws) RETRY_PERIOD.
Proof.
  revert st. induction ws as [|w ws IH]; intros st Hbot; [done|].
  pose proof (poll_loop_cons_obs w ws st) as Hobs. cbv zeta in Hobs.
  destruct (verdict (cycle w st)) as [[]|e] eqn:Hv.
  - destruct Hobs as (-> & _ & ->).
    destruct (IH (final (cycle w st))) as (IHv & IHr & IHs).
    { intros w' m Hin. apply Hbot. by right. }
    destruct (cycle_requests_sleeps w st) as [Hr Hs].
    rewrite requests_made_app, sleeps_app, Hr, Hs, IHs. simpl.
    by rewrite IHr.
  - apply cycle_raises in Hv as (e0 & f & _ & _ & _ & Hs & _).
    rewrite Hbot in Hs by by left. done.
Qed.

(** X17: after any number of cycles [prev_msg] is either the text the loop
    started with or one of the texts that were handed to the bot. *)
Theorem X17_prev_msg_was_handed_to_bot
    (ws : list cycle_env) (st : loop_state) :
  prev_msg (final (poll_loop ws st)) = prev_msg st
  ∨ prev_msg (final (poll_loop ws st))
    ∈ deliveries (trace (poll_loop ws st)).
Proof.
  revert st. induction ws as [|w ws IH]; intros st; [by left|].
  assert (Hc : prev_msg (final (cycle w st)) = prev_msg st
               ∨ prev_msg (final (cycle w st))
                 ∈ deliveries (trace (cycle w st))).
  { pose proof (cycle_cases w st) as Hc. simpl in Hc.
    destruct (candidate _) as [m|]; [|left; apply Hc].
    case_bool_decide; [|left; apply Hc].
    destruct Hc as [Hd Hc].
    destruct (bot_send_message w m); [left; apply Hc|].
    right. destruct Hc as [-> _]. rewrite Hd. by left. }
  pose proof (poll_loop_cons_obs w ws st) as Hobs. cbv zeta in Hobs.
  destruct (verdict (cycle w st)) as [[]|e].
  - destruct Hobs as (-> & -> & _). rewrite deliveries_app.
    destruct (IH (final (cycle w st))) as [IHp | IHp].
    + rewrite IHp. destruct Hc as [Hc | Hc]; [by left | right].
      apply elem_of_app. by left.
    + right. apply elem_of_app. by right.
  - destruct Hobs as (-> & -> & _). done.
Qed.

Lemma get_api_answer_same (w1 w2 : cycle_env) (ts : pyval) :
  truthy ts = true →
  (∀ params, requests_get w1 params = requests_get w2 params) →
  outcome (get_api_answer w1 ts) = outcome (get_api_answer w2 ts).
Proof.
  intros Hts Hget. unfold get_api_answer, outcome. simpl.
  by rewrite Hts, Hget.
Qed.

(** X18: a fetch that fails in the same way in two cycles in a row is
    notified at most once: with a truthy timestamp the failed fetch leaves
    the timestamp alone, so the second cycle builds the same failure
    message, which by then equals [prev_msg] (the bot answering in the
    first cycle). *)
Theorem X18_repeated_fetch_failure_notified_once
    (w1 w2 : cycle_env) (st : loop_state) (o : http_outcome) :
  truthy (current_timestamp st) = true →
  (∀ params, requests_get w1 params = o) →
  (∀ params, requests_get w2 params = o) →
  fetch_fails o →
  (∀ m, bot_send_message w1 m = None) →
  ∃ e, outcome (get_api_answer w1 (current_timestamp st)) = Raise e
       ∧ deliveries (trace (poll_loop [w1; w2] st)) =
           (if bool_decide (failure_message e ≠ prev_msg st)
            then [failure_message e] else [])
       ∧ prev_msg (final (poll_loop [w1; w2] st)) = failure_message e.
Proof.
  intros Hts Hget1 Hget2 Hfail Hbot.
  destruct (get_api_answer_fails w1 (current_timestamp st)) as
    (msg & rest & Hraise & _); [by rewrite Hget1|].
  set (e := {| exn_cls := WrongResponseCode; exn_args := ArgStr msg :: rest |})
    in *.
  exists e. split; [done|].
  assert (Htry1 : try_result w1 st = Raise e)
    by (unfold try_result; by rewrite Hraise).
  pose proof (cycle_cases w1 st) as Hc1. simpl in Hc1.
  rewrite Htry1 in Hc1. simpl in Hc1.
  assert (Hstate : verdict (cycle w1 st) = Ret ()
                   ∧ prev_msg (final (cycle w1 st)) = failure_message e
                   ∧ deliveries (trace (cycle w1 st)) =
                       (if bool_decide (failure_message e ≠ prev_msg st)
                        then [failure_message e] else [])).
  { case_bool_decide as Hne.
    - rewrite Hbot in Hc1. by destruct Hc1 as (? & ? & ?).
    - destruct Hc1 as (? & Hp & ?). split; [done|]. split; [|done].
      rewrite Hp. destruct (decide (failure_message e = prev_msg st)); done. }
  destruct Hstate as (Hv1 & Hp1 & Hd1).
  pose proof (cycle_timestamp w1 st) as Hts1. rewrite Hraise in Hts1.
  set (st1 := final (cycle w1 st)) in *.
  assert (Htry2 : try_result w2 st1 = Raise e).
  { unfold try_result. rewrite Hts1.
    rewrite <- (get_api_answer_same w1 w2), Hraise; [done..|].
    intros params. by rewrite Hget1, Hget2. }
  pose proof (cycle_cases w2 st1) as Hc2. simpl in Hc2.
  rewrite Htry2 in Hc2. simpl in Hc2.
  rewrite bool_decide_false in Hc2 by (by intros []).
  destruct Hc2 as (Hd2 & Hp2 & Hv2).
  pose proof (poll_loop_cons_obs w1 [w2] st) as Ho1. cbv zeta in Ho1.
  rewrite Hv1 in Ho1. fold st1 in Ho1. destruct Ho1 as (-> & -> & _).
  pose proof (poll_loop_cons_obs w2 [] st1) as Ho2. cbv zeta in Ho2.
  rewrite Hv2 in Ho2. destruct Ho2 as (-> & -> & _).
  rewrite !deliveries_app, Hd1, Hd2. simpl.
  split; [by rewrite List.app_nil_r|].
  change (prev_msg (final (cycle w2 st1)) = failure_message e). congruence.
Qed.

End Invariants.

(** ** The further theorems at the sample inputs *)

Lemma X2_main_exits_without_tokens_witness :
  token_absent (TELEGRAM_CHAT_ID env_no_chat_id)
  ∧ (@main sample_interp env_no_chat_id [hw1_bot_up]).2
    = Some (SystemExit no_token_message)
  ∧ requests_made (@main sample_interp env_no_chat_id [hw1_bot_up]).1 = [].
Proof.
  assert (Habsent : token_absent (TELEGRAM_CHAT_ID env_no_chat_id))
    by (by left).
  split; [exact Habsent|].
  destruct (@X2_main_exits_without_tokens sample_interp env_no_chat_id
              [hw1_bot_up] (or_intror (or_intror Habsent)))
    as (Hmain & _ & Hreq & _).
  split; [by rewrite Hmain | exact Hreq].
Defined.

Lemma X3_start_message_fault_stops_main_witness :
  outcome (@check_tokens sample_interp env_bot_down) = Ret true
  ∧ bot_send_message (start_world env_bot_down) start_message = Some timed_out
  ∧ (@main sample_interp env_bot_down [hw1_bot_up]).2
    = Some (Uncaught (delivery_error timed_out))
  ∧ requests_made (@main sample_interp env_bot_down [hw1_bot_up]).1 = [].
Proof.
  assert (Hok : outcome (@check_tokens sample_interp env_bot_down) = Ret true)
    by reflexivity.
  split; [exact Hok|]. split; [reflexivity|].
  destruct (@X3_start_message_fault_stops_main sample_interp env_bot_down
              [hw1_bot_up] timed_out Hok eq_refl eq_refl)
    as (Hmain & Hreq & _).
  split; [by rewrite Hmain | exact Hreq].
Defined.

Lemma X4_nothing_before_start_message_witness :
  requests_made (@main sample_interp env_ready [hw1_bot_up]).1 ≠ []
  ∧ bot_send_message (start_world env_ready) start_message = None
  ∧ head (deliveries (@main sample_interp env_ready [hw1_bot_up]).1)
    = Some start_message.
Proof.
  assert (Hreq : requests_made (@main sample_interp env_ready [hw1_bot_up]).1
                 ≠ []) by (vm_compute; discriminate).
  split; [exact Hreq|].
  destruct (@X4_nothing_before_start_message sample_interp env_ready
              [hw1_bot_up]) as [Hbefore Hfirst].
  destruct (Hbefore Hreq) as (_ & _ & Hsend).
  split; [exact Hsend|]. vm_compute. reflexivity.
Defined.

Lemma X5_first_poll_since_startup_witness :
  outcome (@check_tokens sample_interp env_ready) = Ret true
  ∧ now_start env_ready ≠ 0
  ∧ head (requests_made (@main sample_interp env_ready [hw1_bot_up]).1)
    = Some (PDict {[ "from_date" := PInt 1700000000 ]}).
Proof.
  assert (Hok : outcome (@check_tokens sample_interp env_ready) = Ret true)
    by reflexivity.
  assert (Hnow : now_start env_ready ≠ 0) by discriminate.
  split; [exact Hok|]. split; [exact Hnow|].
  exact (@X5_first_poll_since_startup sample_interp env_ready hw1_bot_up []
           Hok eq_refl eq_refl Hnow).
Defined.

Lemma X7_check_response_rejects_non_mapping_witness :
  is_mapping (PList []) = false
  ∧ ∃ e, outcome (@check_response sample_interp (PList [])) = Raise e
         ∧ exn_cls e = TypeError
         ∧ exn_args e = [ArgStr "Ответ API не является dict."]
         ∧ isinstance e NotForSend = false.
Proof.
  split; [reflexivity|].
  exact (@X7_check_response_rejects_non_mapping sample_interp (PList [])
           eq_refl).
Defined.

Lemma X8_non_mapping_response_fails_at_get_witness :
  is_mapping (PList []) = false
  ∧ raised_class (verdict (@try_block sample_interp array_body_bot_up start))
    = Some AttributeError
  ∧ current_timestamp (final (@cycle sample_interp array_body_bot_up start))
    = current_timestamp start.
Proof.
  split; [reflexivity|].
  destruct (@X8_non_mapping_response_fails_at_get sample_interp
              array_body_bot_up start (PList []) eq_refl eq_refl)
    as (Hv & _ & Hts & _).
  split; [by rewrite Hv | exact Hts].
Defined.

Lemma X9_parse_status_rejects_non_mapping_witness :
  is_mapping (PStr "my homework_name is hw1") = false
  ∧ raised_class (outcome (@parse_status sample_interp
                             (PStr "my homework_name is hw1")))
    = Some AttributeError.
Proof.
  split; [reflexivity|].
  destruct (@X9_parse_status_rejects_non_mapping sample_interp
              (PStr "my homework_name is hw1") eq_refl) as (e & He & Hcls).
  rewrite He. simpl. by rewrite Hcls.
Defined.


Lemma X11_empty_response_is_only_logged_witness :
  (response_no_date !! "homeworks" = None
   ∨ response_no_date !! "current_date" = None)
  ∧ deliveries (trace (@cycle sample_interp no_date_bot_up start)) = []
  ∧ verdict (@cycle sample_interp no_date_bot_up start) = Ret ()
  ∧ current_timestamp (final (@cycle sample_interp no_date_bot_up start))
    = PInt 1700000101.
Proof.
  assert (Hmiss : response_no_date !! "homeworks" = None
                  ∨ response_no_date !! "current_date" = None)
    by (right; vm_compute; reflexivity).
  split; [exact Hmiss|].
  destruct (@X11_empty_response_is_only_logged sample_interp no_date_bot_up
              start response_no_date eq_refl Hmiss)
    as (_ & Hd & _ & Hv & _ & Hts).
  split; [exact Hd|]. split; [exact Hv|].
  rewrite Hts. vm_compute. reflexivity.
Defined.

Lemma X12_no_homeworks_message_witness :
  response_old_date !! "homeworks" = Some (PList [])
  ∧ is_Some (response_old_date !! "current_date")
  ∧ @try_result sample_interp old_date_bot_up start = Ret no_new_statuses
  ∧ deliveries (trace (@cycle sample_interp old_date_bot_up start))
    = [no_new_statuses].
Proof.
  assert (Hh : response_old_date !! "homeworks" = Some (PList []))
    by (vm_compute; reflexivity).
  assert (Hd : is_Some (response_old_date !! "current_date"))
    by (exists (PInt 5); vm_compute; reflexivity).
  split; [exact Hh|]. split; [exact Hd|].
  destruct (@X12_no_homeworks_message sample_interp old_date_bot_up start
              response_old_date eq_refl Hh Hd) as (Htry & Hdel & _).
  split; [exact Htry|]. rewrite Hdel. reflexivity.
Defined.

Lemma X13_only_first_homework_counts_witness :
  response_hw1 !! "homeworks" = Some (PList [PDict hw1_approved])
  ∧ is_Some (response_hw1 !! "current_date")
  ∧ @try_result sample_interp hw1_bot_up start
    = outcome (@parse_status sample_interp (PDict hw1_approved)).
Proof.
  assert (Hh : response_hw1 !! "homeworks" = Some (PList [PDict hw1_approved]))
    by (vm_compute; reflexivity).
  assert (Hd : is_Some (response_hw1 !! "current_date"))
    by (exists (PInt 1700000600); vm_compute; reflexivity).
  split; [exact Hh|]. split; [exact Hd|].
  exact (proj1 (@X13_only_first_homework_counts sample_interp hw1_bot_up start
                  response_hw1 (PDict hw1_approved) [] eq_refl Hh Hd)).
Defined.

Lemma X15_cycle_escape_iff_witness :
  verdict (@cycle sample_interp unavailable_bot_down start)
  = Raise (delivery_error timed_out)
  ∧ exn_cls (delivery_error timed_out) = TelegramError
  ∧ prev_msg (final (@cycle sample_interp unavailable_bot_down start))
    = prev_msg start.
Proof.
  assert (Hv : verdict (@cycle sample_interp unavailable_bot_down start)
               = Raise (delivery_error timed_out)) by (vm_compute; reflexivity).
  split; [exact Hv|].
  exact (proj2 (@X15_cycle_escape_iff sample_interp unavailable_bot_down start
                  (delivery_error timed_out)) Hv).
Defined.

Lemma X16_loop_runs_while_bot_answers_witness :
  (∀ w m, w ∈ [unavailable_bot_up; hw1_bot_up; old_date_bot_up] →
          bot_send_message w m = None)
  ∧ verdict (@poll_loop sample_interp
               [unavailable_bot_up; hw1_bot_up; old_date_bot_up] start)
    = Ret ()
  ∧ sleeps (trace (@poll_loop sample_interp
                     [unavailable_bot_up; hw1_bot_up; old_date_bot_up] start))
    = [RETRY_PERIOD; RETRY_PERIOD; RETRY_PERIOD].
Proof.
  assert (Hbot : ∀ w m,
             w ∈ [unavailable_bot_up; hw1_bot_up; old_date_bot_up] →
             bot_send_message w m = None).
  { intros w m Hin.
    repeat (apply elem_of_cons in Hin as [-> | Hin]; [reflexivity|]).
    by apply elem_of_nil in Hin. }
  split; [exact Hbot|].
  destruct (@X16_loop_runs_while_bot_answers sample_interp
              [unavailable_bot_up; hw1_bot_up; old_date_bot_up] start Hbot)
    as (Hv & _ & Hs).
  split; [exact Hv | exact Hs].
Defined.

Lemma X18_repeated_fetch_failure_notified_once_witness :
  truthy (current_timestamp start) = true
  ∧ fetch_fails (Response 503 (JsonBody PNone))
  ∧ length (deliveries
              (trace (@poll_loop sample_interp
                        [unavailable_bot_up; unavailable_bot_up] start)))
    = 1%nat.
Proof.
  assert (Hfail : fetch_fails (Response 503 (JsonBody PNone)))
    by (left; discriminate).
  split; [reflexivity|]. split; [exact Hfail|].
  destruct (@X18_repeated_fetch_failure_notified_once sample_interp
              unavailable_bot_up unavailable_bot_up start
              (Response 503 (JsonBody PNone)) eq_refl
              (λ _, eq_refl) (λ _, eq_refl) Hfail (λ _, eq_refl))
    as (e & _ & Hd & _).
  rewrite Hd. rewrite bool_decide_true; [reflexivity|].
  unfold failure_message. simpl. discriminate.
Defined.
